(** * Upload handlers of the video-hosting backend

    A shallow embedding of [handler_upload_video.go] and
    [handler_upload_thumbnail.go]: the two HTTP handlers, the aspect-ratio
    classifier [getVideoAspectRatio], and the parts of the Go run time and
    of the collaborators (record store, object storage, local files, the
    prober subprocess) that the handlers drive.

    Go code that can end in three ways is modelled with three outcomes: a
    function returns, it panics (deferred calls still run), or the process
    exits through [os.Exit] (deferred calls do not run). *)

From Stdlib Require Import ZArith String Ascii List Lia.
From Stdlib.Strings Require Import Byte.
From stdpp Require Import base gmap strings list.

Open Scope string_scope.

(** ** Go values *)

(** A Go [error] value, by its message. *)
Definition error := string.

(** The pair [(value, error)] a fallible Go function returns. *)
Inductive result (A : Type) :=
| Ok (a : A)
| Err (e : error).
Arguments Ok {A} a.
Arguments Err {A} e.

(** Go's [int] on the 64-bit targets the server is built for. *)
Definition int_min : Z := - 2 ^ 63.
Definition int_max : Z := 2 ^ 63 - 1.

Definition is_int (x : Z) : Prop := (int_min <= x <= int_max)%Z.

Definition wrap_int (x : Z) : Z := ((x + 2 ^ 63) mod 2 ^ 64 - 2 ^ 63)%Z.

(** [x / y] on [int]: the quotient truncated toward zero; a zero divisor is
    the run-time panic "integer divide by zero" ([None]); the one overflow,
    the most negative value divided by -1, wraps around. *)
Definition int_div (x y : Z) : option Z :=
  if decide (y = 0%Z) then None else Some (wrap_int (x `quot` y)).

(** The three ways a Go call can end. *)
Inductive Outcome (A : Type) :=
| Returned (a : A)
| Panicked (msg : string)
| Exited (code : Z).
Arguments Returned {A} a.
Arguments Panicked {A} msg.
Arguments Exited {A} code.

(** ** encoding/hex and encoding/base64 *)

Module hex.

Definition hextable : string := "0123456789abcdef".

Definition digit (n : N) : ascii :=
  default "0"%char (String.get (N.to_nat n) hextable).

(** [hex.EncodeToString]: two characters per byte, high nibble first. *)
Fixpoint EncodeToString (src : list byte) : string :=
  match src with
  | [] => ""
  | v :: rest =>
      String (digit (N.shiftr (Byte.to_N v) 4))
        (String (digit (N.land (Byte.to_N v) 15)) (EncodeToString rest))
  end.

(** The value of a hexadecimal digit, as [hex.DecodeString] reads it
    (it accepts both cases; the encoder only writes lower case). *)
Definition fromHexChar (c : ascii) : option N :=
  let n := N_of_ascii c in
  if decide (48 <= n <= 57)%N then Some (n - 48)%N
  else if decide (97 <= n <= 102)%N then Some (n - 97 + 10)%N
  else if decide (65 <= n <= 70)%N then Some (n - 65 + 10)%N
  else None.

Fixpoint DecodeString (s : string) : option (list byte) :=
  match s with
  | "" => Some []
  | String a (String b rest) =>
      match fromHexChar a, fromHexChar b, DecodeString rest with
      | Some x, Some y, Some bs =>
          match Byte.of_N (N.lor (N.shiftl x 4) y) with
          | Some v => Some (v :: bs)
          | None => None
          end
      | _, _, _ => None
      end
  | String _ "" => None
  end.

Definition is_lower_hex (c : ascii) : bool :=
  let n := N_of_ascii c in
  ((48 <=? n) && (n <=? 57) || (97 <=? n) && (n <=? 102))%N.

End hex.

Module base64.

(** The alphabet of [base64.RawURLEncoding]: URL-safe, no padding. *)
Definition encodeURL : string :=
  "ABCDEFGHIJKLMNOPQRSTUVWXYZabcdefghijklmnopqrstuvwxyz0123456789-_".

Definition sextet (n : N) : ascii :=
  default "A"%char (String.get (N.to_nat (N.land n 63)) encodeURL).

(** [RawURLEncoding.EncodeToString]: every three bytes give four
    characters; a rest of one byte gives two, a rest of two gives three. *)
Fixpoint EncodeToString (src : list byte) : string :=
  match src with
  | [] => ""
  | [b0] =>
      let val := N.shiftl (Byte.to_N b0) 16 in
      String (sextet (N.shiftr val 18)) (String (sextet (N.shiftr val 12)) "")
  | [b0; b1] =>
      let val := N.lor (N.shiftl (Byte.to_N b0) 16) (N.shiftl (Byte.to_N b1) 8) in
      String (sextet (N.shiftr val 18))
        (String (sextet (N.shiftr val 12)) (String (sextet (N.shiftr val 6)) ""))
  | b0 :: b1 :: b2 :: rest =>
      let val := N.lor (N.lor (N.shiftl (Byte.to_N b0) 16) (N.shiftl (Byte.to_N b1) 8))
                   (Byte.to_N b2) in
      String (sextet (N.shiftr val 18))
        (String (sextet (N.shiftr val 12))
           (String (sextet (N.shiftr val 6))
              (String (sextet val) (EncodeToString rest))))
  end.

End base64.

(** ** Data model *)

(** [uuid.UUID] is sixteen bytes; it is kept as the number they spell. *)
Abbreviation UUID := N (only parsing).

(** Modelled from the spec: the record type [database.Video] is declared in
    the store's package, which is not among the sources. The fields are the
    ones the data model names: identity, owner, the two optional URLs, and
    the descriptive fields the handlers pass through. *)
Record Video := mkVideo {
  ID : UUID;
  UserID : UUID;
  Title : string;
  Description : string;
  ThumbnailURL : option string;
  VideoURL : option string;
}.

(** [videoMetadata.VideoURL = &videoURL] *)
Definition set_VideoURL (v : Video) (url : string) : Video :=
  {| ID := ID v; UserID := UserID v; Title := Title v; Description := Description v;
     ThumbnailURL := ThumbnailURL v; VideoURL := Some url |}.

(** [videoMetadata.ThumbnailURL = &dataUrl] *)
Definition set_ThumbnailURL (v : Video) (url : string) : Video :=
  {| ID := ID v; UserID := UserID v; Title := Title v; Description := Description v;
     ThumbnailURL := Some url; VideoURL := VideoURL v |}.

(** Modelled from the spec: [apiConfig] is declared beside [main], not among
    the sources. These are the configuration values the handlers read; the
    store and the storage client it also holds are part of [World]. *)
Record apiConfig := mkConfig {
  jwtSecret : string;
  s3Bucket : string;
  s3Region : string;
  assetsRoot : string;
  port : string;
}.

(** The two local types of [getVideoAspectRatio]. *)
Record StreamInfo := mkStream { Width : Z; Height : Z }.
Record Response := mkResponse { Streams : list StreamInfo }.

(** ** net/http and mime/multipart *)

Abbreviation MIMEHeader := (gmap string (list string)) (only parsing).

(** [Header.Get]: the first value under the key, or the empty string. *)
Definition Header_Get (h : MIMEHeader) (key : string) : string :=
  match h !! key with
  | Some (v :: _) => v
  | _ => ""
  end.

(** One part of a multipart body as it arrives. *)
Record RawPart := mkPart {
  FormName : string;
  FileName : string;
  PartHeader : MIMEHeader;
  PartData : list byte;
}.

(** [multipart.FileHeader]; [tmpfile] tells whether the content was spilled
    to a temporary file on disk instead of being held in memory. *)
Record FileHeader := mkFileHeader {
  Filename : string;
  FHeader : MIMEHeader;
  Size : Z;
  content : list byte;
  tmpfile : bool;
}.

(** [multipart.Form] *)
Record Form := mkForm {
  Value : gmap string (list (list byte));
  File : gmap string (list FileHeader);
}.

(** The request as the handlers use it. [body_len] is the number of bytes
    the body yields on the wire (parts, boundaries, preamble, parts without
    a form name); [body_parts] is the multipart message those bytes spell,
    [None] when they are not one. [body_limit] is the limit set by
    [http.MaxBytesReader], [MultipartForm] the parsed form once there is one. *)
Record Request := mkRequest {
  PathValues : gmap string string;
  Header : MIMEHeader;
  body_len : Z;
  body_parts : option (list RawPart);
  body_limit : option Z;
  MultipartForm : option Form;
}.

Definition PathValue (r : Request) (name : string) : string :=
  default "" (PathValues r !! name).

(** [r.Body = http.MaxBytesReader(w, r.Body, n)]: reading past [n] bytes
    fails from then on. *)
Definition MaxBytesReader (r : Request) (n : Z) : Request :=
  {| PathValues := PathValues r; Header := Header r; body_len := body_len r;
     body_parts := body_parts r;
     body_limit := Some (match body_limit r with Some m => Z.min m n | None => n end);
     MultipartForm := MultipartForm r |}.

Definition set_MultipartForm (r : Request) (f : Form) : Request :=
  {| PathValues := PathValues r; Header := Header r; body_len := body_len r;
     body_parts := body_parts r; body_limit := body_limit r;
     MultipartForm := Some f |}.

(** Reading the whole body: fails when a byte limit is set and exceeded,
    or when the bytes are not a multipart message. *)
Definition read_body (r : Request) : result (list RawPart) :=
  match body_limit r with
  | Some lim =>
      if decide (lim < body_len r)%Z then Err "http: request body too large"
      else match body_parts r with
           | Some ps => Ok ps
           | None => Err "request Content-Type isn't multipart/form-data"
           end
  | None =>
      match body_parts r with
      | Some ps => Ok ps
      | None => Err "request Content-Type isn't multipart/form-data"
      end
  end.

Definition add_value (f : Form) (name : string) (v : list byte) : Form :=
  {| Value := <[name := (default [] (Value f !! name) ++ [v])%list]> (Value f); File := File f |}.

Definition add_file (f : Form) (name : string) (fh : FileHeader) : Form :=
  {| Value := Value f; File := <[name := (default [] (File f !! name) ++ [fh])%list]> (File f) |}.

(** [multipart.Reader.ReadForm], as the library documents it: file parts are
    kept in memory up to [maxFileMemoryBytes] in total and go to temporary
    files beyond that; non-file parts must fit the memory budget, and the
    form is refused ([ErrMessageTooLarge]) when they do not. This is the
    form the handlers get to see, and no more: the temporary files of the
    library are only marked ([tmpfile]), not written to [files], and the
    library's limit on the number of parts and its bookkeeping of header
    sizes against the budget are left out, so that some messages the
    library refuses are accepted here. No property below rests on a
    message being accepted that the library would refuse, or on what the
    parser leaves on disk. *)
Fixpoint readForm (parts : list RawPart) (maxFileMemoryBytes maxMemoryBytes : Z)
    (form : Form) : result Form :=
  match parts with
  | [] => Ok form
  | p :: rest =>
      let n := Z.of_nat (length (PartData p)) in
      if decide (FormName p = "") then
        readForm rest maxFileMemoryBytes maxMemoryBytes form
      else if decide (FileName p = "") then
        if decide (maxMemoryBytes < n)%Z then Err "multipart: message too large"
        else readForm rest maxFileMemoryBytes (maxMemoryBytes - n)
               (add_value form (FormName p) (PartData p))
      else if decide (maxFileMemoryBytes < n)%Z then
        readForm rest maxFileMemoryBytes maxMemoryBytes
          (add_file form (FormName p)
             {| Filename := FileName p; FHeader := PartHeader p; Size := n;
                content := PartData p; tmpfile := true |})
      else
        readForm rest (maxFileMemoryBytes - n) (maxMemoryBytes - n)
          (add_file form (FormName p)
             {| Filename := FileName p; FHeader := PartHeader p; Size := n;
                content := PartData p; tmpfile := false |})
  end.

(** [r.ParseMultipartForm(maxMemory)]: parses the whole body; [maxMemory]
    bounds what is held in memory, with ten more mebibytes reserved for the
    non-file parts. A request that is already parsed is left as it is. *)
Definition ParseMultipartForm (r : Request) (maxMemory : Z) : result Request :=
  match MultipartForm r with
  | Some _ => Ok r
  | None =>
      match read_body r with
      | Err e => Err e
      | Ok ps =>
          match readForm ps maxMemory (maxMemory + Z.shiftl 10 20) (mkForm ∅ ∅) with
          | Err e => Err e
          | Ok f => Ok (set_MultipartForm r f)
          end
      end
  end.

Definition defaultMaxMemory : Z := Z.shiftl 32 20.

(** [r.FormFile(key)]: parses the form when that has not been done, and
    returns the first file under [key]. As for [readForm], only the
    result is modelled, not the temporary files the parser writes. *)
Definition FormFile (r : Request) (key : string) : result FileHeader :=
  match ParseMultipartForm r defaultMaxMemory with
  | Err e => Err e
  | Ok r' =>
      match MultipartForm r' with
      | Some f =>
          match File f !! key with
          | Some (fh :: _) => Ok fh
          | _ => Err "http: no such file"
          end
      | None => Err "http: no such file"
      end
  end.

Definition StatusOK : Z := 200.
Definition StatusBadRequest : Z := 400.
Definition StatusUnauthorized : Z := 401.
Definition StatusInternalServerError : Z := 500.

(** ** The world a request runs in *)

(** [s3.PutObjectInput]; [Body] is the open local file the bytes are read
    from. *)
Record PutObjectInput := mkPut {
  Bucket : string;
  Key : string;
  Body : string;
  ContentType : string;
}.

(** What [respondWithError] and [respondWithJSON] put on the wire. *)
Inductive Payload :=
| ErrorBody (msg : string)
| VideoBody (v : Video).

Record HTTPResponse := mkHTTP { StatusCode : Z; Payload_ : Payload }.

(** The calls a handler makes on its collaborators, as they are made. *)
Inductive Event :=
| EvGetVideo (id : UUID)
| EvUpdateVideo (v : Video)
| EvPutObject (params : PutObjectInput) (body : list byte)
| EvCreateTemp (name : string)
| EvCreate (path : string)
| EvCopy (dst : option string) (data : list byte)
| EvSeek (name : string)
| EvClose (name : option string)
| EvRemove (name : string)
| EvRun (cmd : string) (args : list string)
| EvRandRead (n : nat)
| EvLog (line : string).

(** The state outside the handler: the record store, the local files the
    handlers themselves create, write, read and remove (path to
    contents), the responses written so far (oldest first) and the calls
    the handlers made so far (newest first). The temporary files the
    multipart parser of the library keeps for itself while a request is
    served are not among these files, and what the parser does with them
    is not among the calls. *)
Record World := mkWorld {
  store : gmap UUID Video;
  files : gmap string (list byte);
  responses : list HTTPResponse;
  calls : list Event;
}.

Definition record_call (e : Event) (w : World) : World :=
  {| store := store w; files := files w; responses := responses w;
     calls := e :: calls w |}.

Definition set_files (fs : gmap string (list byte)) (w : World) : World :=
  {| store := store w; files := fs; responses := responses w; calls := calls w |}.

Definition set_store (st : gmap UUID Video) (w : World) : World :=
  {| store := st; files := files w; responses := responses w; calls := calls w |}.

Definition add_response (r : HTTPResponse) (w : World) : World :=
  {| store := store w; files := files w; responses := (responses w ++ [r])%list;
     calls := calls w |}.

(** The status the client sees: the first one written. *)
Definition status (w : World) : option Z := StatusCode <$> head (responses w).

(** How [cmd.Run] can fail: the command ran and exited with a non-zero
    status ([*exec.ExitError]), or anything else (not found, I/O). *)
Inductive RunError :=
| ExitError (code : Z)
| OtherRunError (e : error).

(** What the outside decides in one run: the answers of the pure
    collaborators (identifier and credential parsing, media-type parsing,
    the prober on a file's contents, the JSON decoder on the prober's
    output), the random bytes and temporary-file suffixes drawn, and which
    of the I/O calls fail. *)
Record Env := mkEnv {
  uuid_Parse : string -> result UUID;
  auth_GetBearerToken : MIMEHeader -> result string;
  auth_ValidateJWT : string -> string -> result UUID;
  mime_ParseMediaType : string -> result string;
  ffprobe : option (list byte) -> option RunError * list byte;
  json_Unmarshal : list byte -> result Response;
  rand_stream : nat -> byte;
  rand_err : option error;
  temp_suffixes : list string;
  GetVideo_err : option error;
  UpdateVideo_err : option error;
  PutObject_err : option error;
  CreateTemp_err : option error;
  Create_err : option error;
  Copy_err : option error;
  Seek_err : option error;
}.

(** ** Effectful code *)

Definition M (A : Type) : Type := World -> Outcome A * World.

Definition ret {A} (a : A) : M A := fun w => (Returned a, w).

Definition bind {A B} (m : M A) (k : A -> M B) : M B := fun w =>
  match m w with
  | (Returned a, w') => k a w'
  | (Panicked msg, w') => (Panicked msg, w')
  | (Exited c, w') => (Exited c, w')
  end.

(** stdpp's monad notations ([x ← m; k], [m ;; k]) are used for [M]. *)
#[global] Instance M_ret : MRet M := @ret.
#[global] Instance M_bind : MBind M := fun A B k m => bind m k.

(** A run-time panic. *)
Definition panic {A} (msg : string) : M A := fun w => (Panicked msg, w).

(** [defer d] followed by the rest of the function body: [d] runs when the
    body returns and when it panics, not when the process exits. *)
Definition defer {A} (d : M unit) (body : M A) : M A := fun w =>
  match body w with
  | (Returned a, w1) =>
      match d w1 with
      | (Returned _, w2) => (Returned a, w2)
      | (Panicked msg, w2) => (Panicked msg, w2)
      | (Exited c, w2) => (Exited c, w2)
      end
  | (Panicked msg, w1) =>
      match d w1 with
      | (Returned _, w2) => (Panicked msg, w2)
      | (Panicked msg', w2) => (Panicked msg', w2)
      | (Exited c, w2) => (Exited c, w2)
      end
  | (Exited c, w1) => (Exited c, w1)
  end.

Definition call (e : Event) : M unit := fun w => (Returned tt, record_call e w).

(** [s[i]] on a slice: out of range is a run-time panic. *)
Definition index {A} (s : list A) (i : nat) : M A :=
  match s !! i with
  | Some x => ret x
  | None => panic "index out of range"
  end.

(** [x / y] with its panic. *)
Definition quo (x y : Z) : M Z :=
  match int_div x y with
  | Some q => ret q
  | None => panic "integer divide by zero"
  end.

Module os.

Definition TempDir : string := "/tmp".

(** [os.Exit]: the process ends here. *)
Definition Exit {A} (code : Z) : M A := fun w => (Exited code, w).

Definition exists_ (w : World) (name : string) : bool :=
  match files w !! name with Some _ => true | None => false end.

(** [os.CreateTemp(dir, pattern)]: a new, empty file whose name is the
    pattern followed by a random suffix (the pattern has no star); a
    name that is taken is skipped and the next suffix tried. *)
Definition CreateTemp (env : Env) (dir pattern : string) : M (result string) := fun w =>
  match CreateTemp_err env with
  | Some e => (Returned (Err e), w)
  | None =>
      let d := if decide (dir = "") then TempDir else dir in
      match find (fun name => negb (exists_ w name))
              (map (fun s => d ++ "/" ++ pattern ++ s) (temp_suffixes env)) with
      | Some name =>
          (Returned (Ok name),
           record_call (EvCreateTemp name) (set_files (<[name := []]> (files w)) w))
      | None => (Returned (Err "file exists"), w)
      end
  end.

(** [os.Create(path)]: creates or truncates; [None] stands for the nil
    file the call returns with an error. *)
Definition Create (env : Env) (path : string) : M (option string * option error) := fun w =>
  let w := record_call (EvCreate path) w in
  match Create_err env with
  | Some e => (Returned (None, Some e), w)
  | None => (Returned (Some path, None), set_files (<[path := []]> (files w)) w)
  end.

Definition Remove (name : string) : M (option error) := fun w =>
  let w' := record_call (EvRemove name) w in
  if exists_ w name then (Returned None, set_files (delete name (files w')) w')
  else (Returned (Some "no such file or directory"), w').

(** [f.Close()] *)
Definition Close (f : option string) : M unit := call (EvClose f).

(** [f.Seek(0, io.SeekStart)] *)
Definition Seek (env : Env) (f : string) : M (option error) :=
  call (EvSeek f);; ret (Seek_err env).

End os.

Module io.

(** [io.Copy(dst, src)] into a local file: the bytes are appended where
    the file stands. A nil file refuses the write. *)
Definition Copy (env : Env) (dst : option string) (src : list byte) : M (option error) := fun w =>
  let w := record_call (EvCopy dst src) w in
  match dst with
  | None => (Returned (Some "invalid argument"), w)
  | Some name =>
      match Copy_err env with
      | Some e => (Returned (Some e), w)
      | None =>
          (Returned None,
           set_files (<[name := (default [] (files w !! name) ++ src)%list]> (files w)) w)
      end
  end.

End io.

Module rand.

(** [rand.Read(b)] fills [b] from the system's source of randomness. The
    buffer is the one [make([]byte, n)] gave: zeroes until filled. *)
Definition Read (env : Env) (n : nat) : M (list byte * option error) :=
  call (EvRandRead n);;
  match rand_err env with
  | Some e => ret (repeat x00 n, Some e)
  | None => ret (map (rand_stream env) (seq 0 n), None)
  end.

End rand.

Module log.

Definition Printf (line : string) : M unit := call (EvLog line).

(** [log.Fatal]: prints, then [os.Exit(1)]. *)
Definition Fatal (line : string) : M unit := call (EvLog line);; os.Exit 1.

End log.

Module exec.

(** [exec.Command(name, args...)] with [Stdout] set to a buffer, then
    [Run]: the error of the run and the bytes the command printed. The
    prober reads the file named by its last argument. *)
Definition Run (env : Env) (name : string) (args : list string)
  : M (option RunError * list byte) := fun w =>
  (Returned (ffprobe env (files w !! default "" (last args))),
   record_call (EvRun name args) w).

End exec.

Module db.

(** Modelled from the spec: the store's [GetVideo] and [UpdateVideo] are
    not among the sources. Fetch by id fails when the store fails or has
    no such record; update rewrites the record stored under the id. *)
Definition GetVideo (env : Env) (id : UUID) : M (result Video) := fun w =>
  let w := record_call (EvGetVideo id) w in
  match GetVideo_err env with
  | Some e => (Returned (Err e), w)
  | None =>
      match store w !! id with
      | Some v => (Returned (Ok v), w)
      | None => (Returned (Err "sql: no rows in result set"), w)
      end
  end.

Definition UpdateVideo (env : Env) (v : Video) : M (option error) := fun w =>
  let w := record_call (EvUpdateVideo v) w in
  match UpdateVideo_err env with
  | Some e => (Returned (Some e), w)
  | None =>
      match store w !! ID v with
      | Some _ => (Returned None, set_store (<[ID v := v]> (store w)) w)
      | None => (Returned None, w)
      end
  end.

End db.

Module s3.

(** [cfg.s3Client.PutObject(ctx, &params)]: the body is read from the
    open file. *)
Definition PutObject (env : Env) (params : PutObjectInput) : M (option error) := fun w =>
  (Returned (PutObject_err env),
   record_call (EvPutObject params (default [] (files w !! Body params))) w).

End s3.

(** Modelled from the spec: the response helpers are not among the sources.
    [respondWithJSON] writes one JSON response with the given status;
    [respondWithError] logs the failure and writes the error envelope. *)
Definition respondWithJSON (code : Z) (payload : Payload) : M unit := fun w =>
  (Returned tt, add_response (mkHTTP code payload) w).

Definition respondWithError (code : Z) (msg : string) (err : option error) : M unit :=
  log.Printf msg;; respondWithJSON code (ErrorBody msg).

(** [filepath.Join] of a directory and a file name without separators. The
    directory is taken as already clean (no trailing separator, no dot
    elements), so that the cleaning the library does leaves it as it is;
    an empty directory is dropped. *)
Definition filepath_Join (dir name : string) : string :=
  if decide (dir = "") then name
  else if decide (dir = "/") then "/" ++ name
  else dir ++ "/" ++ name.

(** [file.Close()] on the uploaded part. *)
Definition multipart_Close (fh : FileHeader) : M unit := call (EvClose (Some (Filename fh))).

(** ** handler_upload_video.go *)

(** [errors.As(err, &exitErr)] with [exitErr] an [*exec.ExitError]. *)
Definition errors_As_ExitError (err : option RunError) : bool :=
  match err with
  | Some (ExitError _) => true
  | _ => false
  end.

(** The last statements of [getVideoAspectRatio]: the truncated quotients
    of the first stream's sides are compared with the constant [16/9]. *)
Definition compareSides (file : Response) : M (string * option error) :=
  s0 ← index (Streams file) 0;
  s1 ← index (Streams file) 0;
  q ← quo (Width s0) (Height s1);
  if decide (q = 16 `quot` 9)%Z then mret ("16:9", None)
  else
    s2 ← index (Streams file) 0;
    s3 ← index (Streams file) 0;
    q' ← quo (Height s2) (Width s3);
    if decide (q' = 16 `quot` 9)%Z then mret ("9:16", None)
    else mret ("other", None).

(** [getVideoAspectRatio]: runs the prober on the file, decodes what it
    printed, and compares the sides. *)
Definition getVideoAspectRatio (env : Env) (filePath : string) : M (string * option error) :=
  '(err, b) ← exec.Run env "ffprobe"
                ["-v"; "error"; "-print_format"; "json"; "-show_streams"; filePath];
  log.Printf "Command finished with error: %v";;
  if errors_As_ExitError err then
    log.Fatal "Couldn't run command";;
    mret ("", Some "exit status")
  else
    match json_Unmarshal env b with
    | Err e =>
        log.Fatal "Couldn't unmarshal";;
        mret ("", Some e)
    | Ok file => compareSides file
    end.

(** The prober, run on [filePath], did not exit with a non-zero status and
    its output decodes to [file]. *)
Definition probes_to (env : Env) (w : World) (filePath : string) (file : Response) : Prop :=
  errors_As_ExitError (ffprobe env (files w !! filePath)).1 = false
  ∧ json_Unmarshal env (ffprobe env (files w !! filePath)).2 = Ok file.

(** The [switch aspectRatio] of the handler. *)
Definition videoTypeOf (aspectRatio : string) : string :=
  if decide (aspectRatio = "16:9") then "landscape"
  else if decide (aspectRatio = "9:16") then "portrait"
  else "other".

Definition handlerUploadVideo (env : Env) (cfg : apiConfig) (r : Request) : M unit :=
  let maxBytes := Z.shiftl 1 30 in
  let r := MaxBytesReader r maxBytes in
  let videoIDString := PathValue r "videoID" in
  match uuid_Parse env videoIDString with
  | Err err => respondWithError StatusBadRequest "Couldn't get video ID" (Some err)
  | Ok videoID =>
  match auth_GetBearerToken env (Header r) with
  | Err err => respondWithError StatusUnauthorized "Couldn't find JWT" (Some err)
  | Ok token =>
  match auth_ValidateJWT env token (jwtSecret cfg) with
  | Err err => respondWithError StatusUnauthorized "Couldn't validate JWT" (Some err)
  | Ok userID =>
  res ← db.GetVideo env videoID;
  match res with
  | Err err =>
      respondWithError StatusInternalServerError "Unable to get video metadata" (Some err)
  | Ok videoMetadata =>
  if decide (userID ≠ UserID videoMetadata) then
    respondWithError StatusUnauthorized "Unauthorized: must be video's owner" None
  else
  match FormFile r "video" with
  | Err err => respondWithError StatusBadRequest "Couldn't parse video file" (Some err)
  | Ok header =>
  defer (multipart_Close header) (
  match mime_ParseMediaType env (Header_Get (FHeader header) "Content-Type") with
  | Err err => respondWithError StatusBadRequest "Error parsing media type" (Some err)
  | Ok mediaType =>
  if decide (mediaType ≠ "video/mp4") then
    respondWithError StatusBadRequest "Wrong media type. Video files must be .mp4" None
  else
  res ← os.CreateTemp env "" "tubely-upload.mp4";
  match res with
  | Err err =>
      respondWithError StatusInternalServerError "Couldn't create temp file" (Some err)
  | Ok tempFile =>
  defer (os.Remove tempFile;; mret tt) (
  defer (os.Close (Some tempFile)) (
  err ← io.Copy env (Some tempFile) (content header);
  match err with
  | Some e => respondWithError StatusInternalServerError "Couldn't write temp file" (Some e)
  | None =>
  err ← os.Seek env tempFile;
  match err with
  | Some e =>
      respondWithError StatusInternalServerError
        "Couldn't reset temp file's file pointer" (Some e)
  | None =>
  '(aspectRatio, err) ← getVideoAspectRatio env tempFile;
  match err with
  | Some e =>
      respondWithError StatusInternalServerError "Couldn't get video's aspect ratio" (Some e)
  | None =>
  let videoType := videoTypeOf aspectRatio in
  '(b, err) ← rand.Read env 32;
  match err with
  | Some e =>
      respondWithError StatusInternalServerError "Couldn't generate video key" (Some e)
  | None =>
  let key := videoType ++ "/" ++ hex.EncodeToString b ++ ".mp4" in
  let params := {| Bucket := s3Bucket cfg; Key := key; Body := tempFile;
                   ContentType := mediaType |} in
  err ← s3.PutObject env params;
  match err with
  | Some e =>
      respondWithError StatusInternalServerError "Couldn't put object into s3" (Some e)
  | None =>
  let videoURL := "https://" ++ s3Bucket cfg ++ ".s3." ++ s3Region cfg
                    ++ ".amazonaws.com/" ++ key in
  let videoMetadata := set_VideoURL videoMetadata videoURL in
  err ← db.UpdateVideo env videoMetadata;
  match err with
  | Some e => respondWithError StatusBadRequest "Error updating video metadata" (Some e)
  | None => respondWithJSON StatusOK (VideoBody videoMetadata)
  end end end end end end))
  end end)
  end end end end end.

(** ** handler_upload_thumbnail.go *)

Definition mimeToExt : gmap string string :=
  {[ "image/png" := ".png"; "image/jpeg" := ".jpg" ]}.

Definition handlerUploadThumbnail (env : Env) (cfg : apiConfig) (r : Request) : M unit :=
  let videoIDString := PathValue r "videoID" in
  match uuid_Parse env videoIDString with
  | Err err => respondWithError StatusBadRequest "Invalid ID" (Some err)
  | Ok videoID =>
  match auth_GetBearerToken env (Header r) with
  | Err err => respondWithError StatusUnauthorized "Couldn't find JWT" (Some err)
  | Ok token =>
  match auth_ValidateJWT env token (jwtSecret cfg) with
  | Err err => respondWithError StatusUnauthorized "Couldn't validate JWT" (Some err)
  | Ok userID =>
  log.Printf "uploading thumbnail for video";;
  let maxMemory := Z.shiftl 10 20 in
  match ParseMultipartForm r maxMemory with
  | Err err => respondWithError StatusBadRequest "Unable to parse multipart form" (Some err)
  | Ok r =>
  match FormFile r "thumbnail" with
  | Err err => respondWithError StatusBadRequest "Unable to parse form file" (Some err)
  | Ok header =>
  defer (multipart_Close header) (
  match mime_ParseMediaType env (Header_Get (FHeader header) "Content-Type") with
  | Err err => respondWithError StatusBadRequest "Error parsing media type" (Some err)
  | Ok mediaType =>
  if negb (bool_decide (mediaType = "image/jpeg") || bool_decide (mediaType = "image/png")) then
    respondWithError StatusBadRequest "Wrong media type" None
  else
  res ← db.GetVideo env videoID;
  match res with
  | Err err =>
      respondWithError StatusInternalServerError "Unable to get video metadata" (Some err)
  | Ok videoMetadata =>
  if decide (userID ≠ UserID videoMetadata) then
    respondWithError StatusUnauthorized "Unauthorized: must be video's owner" None
  else
  match mimeToExt !! mediaType with
  | None => respondWithError StatusBadRequest "Wrong file extension" None
  | Some fileExtension =>
  '(b, _) ← rand.Read env 32;
  let key := base64.EncodeToString b in
  let fileName := key ++ fileExtension in
  let filePath := filepath_Join (assetsRoot cfg) fileName in
  '(thumbnailFile, err) ← os.Create env filePath;
  match err with
  | Some e =>
      respondWithError StatusInternalServerError "Error creating thumbnail file" (Some e)
  | None => mret tt
  end;;
  defer (os.Close thumbnailFile) (
  err ← io.Copy env thumbnailFile (content header);
  match err with
  | Some e =>
      respondWithError StatusInternalServerError "Error writing content into file" (Some e)
  | None =>
  let dataUrl := "http://localhost:" ++ port cfg ++ "/assets/" ++ fileName in
  let videoMetadata := set_ThumbnailURL videoMetadata dataUrl in
  err ← db.UpdateVideo env videoMetadata;
  match err with
  | Some e => respondWithError StatusBadRequest "Error updating video metadata" (Some e)
  | None => respondWithJSON StatusOK (VideoBody videoMetadata)
  end end)
  end end end)
  end end end end end.

(** ** A concrete deployment, for running the model *)

Module demo.

Definition videoID : string := "7c9e6679-7425-40de-944b-e07fc1f90ae7".

Definition cfg : apiConfig :=
  {| jwtSecret := "secret"; s3Bucket := "tubely"; s3Region := "us-east-2";
     assetsRoot := "assets"; port := "8091" |}.

(** The record 1 belongs to user 10. *)
Definition video : Video :=
  {| ID := 1; UserID := 10; Title := "Holiday"; Description := "At the lake";
     ThumbnailURL := None; VideoURL := None |}.

Definition world : World :=
  {| store := {[ 1%N := video ]}; files := ∅; responses := []; calls := [] |}.

(** The token after the scheme word, when the header has one. *)
Definition GetBearerToken (h : MIMEHeader) : result string :=
  let v := Header_Get h "Authorization" in
  if String.prefix "Bearer " v then Ok (String.substring 7 (String.length v - 7) v)
  else Err "no auth header included in request".

(** Two users hold valid tokens: the owner (10) and somebody else (20). *)
Definition ValidateJWT (token secret : string) : result UUID :=
  if decide (secret = "secret") then
    if decide (token = "owner-token") then Ok 10%N
    else if decide (token = "other-token") then Ok 20%N
    else Err "token is malformed"
  else Err "signature is invalid".

(** An environment in which no I/O call fails; the prober's result on the
    uploaded file and the decoding of its output are given. *)
Definition env (probe : option RunError) (decoded : result Response) : Env :=
  {| uuid_Parse s := if decide (s = videoID) then Ok 1%N else Err "invalid UUID length";
     auth_GetBearerToken := GetBearerToken;
     auth_ValidateJWT := ValidateJWT;
     mime_ParseMediaType s := if decide (s = "") then Err "mime: no media type" else Ok s;
     ffprobe _ := (probe, [x7b; x7d]);
     json_Unmarshal _ := decoded;
     rand_stream i := default x00 (Byte.of_nat i);
     rand_err := None;
     temp_suffixes := ["2490714011"];
     GetVideo_err := None; UpdateVideo_err := None; PutObject_err := None;
     CreateTemp_err := None; Create_err := None; Copy_err := None; Seek_err := None |}.

(** The prober succeeds and reports one stream of the given size. *)
Definition env_sized (width height : Z) : Env :=
  env None (Ok (mkResponse [mkStream width height])).

(** An upload of four bytes under the form field [field], with the given
    credential, declared content type and length of the body on the wire. *)
Definition upload (field token contentType : string) (len : Z) : Request :=
  {| PathValues := {[ "videoID" := videoID ]};
     Header := {[ "Authorization" := ["Bearer " ++ token] ]};
     body_len := len;
     body_parts := Some [ {| FormName := field; FileName := "upload.bin";
                             PartHeader := {[ "Content-Type" := [contentType] ]};
                             PartData := [x00; x01; x02; x03] |} ];
     body_limit := None;
     MultipartForm := None |}.

Definition tempName : string := "/tmp/tubely-upload.mp42490714011".

End demo.

(** What the run of the prober leaves in the world before the sides are
    compared. *)
Definition probed (filePath : string) (w : World) : World :=
  record_call (EvLog "Command finished with error: %v")
    (record_call
       (EvRun "ffprobe" ["-v"; "error"; "-print_format"; "json"; "-show_streams"; filePath])
       w).

(** The handler derives [label] from what the classifier returned. *)
Definition labelled (o : Outcome (string * option error)) (label : string) : Prop :=
  ∃ aspectRatio : string, o = Returned (aspectRatio, None) ∧ videoTypeOf aspectRatio = label.

(** ** Observing a run *)

(** Every call made after the trace stood at [base] satisfies [P]. *)
Inductive since (base : list Event) (P : Event -> Prop) : list Event -> Prop :=
| since_base : since base P base
| since_call (e : Event) (l : list Event) : P e -> since base P l -> since base P (e :: l).


(** Calls that are neither the object-storage put ([PutObject]), nor the
    local asset write (the handler's [os.Create] and [io.Copy]), nor the
    record updater ([UpdateVideo]). *)
Definition no_put_write_update (e : Event) : Prop :=
  match e with
  | EvPutObject _ _ | EvCreate _ | EvCopy _ _ | EvUpdateVideo _ => False
  | _ => True
  end.

Definition not_update (e : Event) : Prop :=
  match e with
  | EvUpdateVideo _ => False
  | _ => True
  end.


(** The media type the part declares, as the handlers read it. *)
Definition declared_type (env : Env) (header : FileHeader) : result string :=
  mime_ParseMediaType env (Header_Get (FHeader header) "Content-Type").

(** The thumbnail upload passes the checks the handler makes on the form
    and on the declared content type of the part. *)
Definition thumbnail_accepted (env : Env) (r : Request) : Prop :=
  ∃ (r' : Request) (header : FileHeader) (mediaType : string),
    ParseMultipartForm r (Z.shiftl 10 20) = Ok r'
    ∧ FormFile r' "thumbnail" = Ok header
    ∧ declared_type env header = Ok mediaType
    ∧ (mediaType = "image/jpeg" ∨ mediaType = "image/png").

(** The caller holds a valid credential for [userID], and the record the
    path names is in the store. *)
Definition authenticated (env : Env) (cfg : apiConfig) (r : Request) (userID : UUID) : Prop :=
  ∃ token : string,
    auth_GetBearerToken env (Header r) = Ok token
    ∧ auth_ValidateJWT env token (jwtSecret cfg) = Ok userID.

Definition fetches (env : Env) (r : Request) (w : World) (v : Video) : Prop :=
  ∃ videoID : UUID,
    uuid_Parse env (PathValue r "videoID") = Ok videoID
    ∧ GetVideo_err env = None
    ∧ store w !! videoID = Some v.

(** The URL template of the video flow, in the spec's words:
    https://{bucket}.s3.{region}.amazonaws.com/{classification}/{hex}.mp4 *)
Definition video_url (cfg : apiConfig) (classification : string) (b : list byte) : string :=
  "https://" ++ s3Bucket cfg ++ ".s3." ++ s3Region cfg ++ ".amazonaws.com/"
    ++ classification ++ "/" ++ hex.EncodeToString b ++ ".mp4".

(** ** Further observations *)

(** Calls that only write to the log. *)
Definition only_logs (e : Event) : Prop :=
  match e with
  | EvLog _ => True
  | _ => False
  end.

(** The characters of the URL-safe alphabet: letters, digits, [-] and [_]. *)
Definition url_safe (c : ascii) : bool :=
  let n := N_of_ascii c in
  ((65 <=? n) && (n <=? 90) || (97 <=? n) && (n <=? 122) || (48 <=? n) && (n <=? 57)
   || (n =? 45) || (n =? 95))%N.

(** The deployment of [demo.env_sized] in which the given I/O calls fail. *)
Definition demo_faulty (create copy put update : option error) : Env :=
  {| uuid_Parse := uuid_Parse (demo.env_sized 1920 1080);
     auth_GetBearerToken := auth_GetBearerToken (demo.env_sized 1920 1080);
     auth_ValidateJWT := auth_ValidateJWT (demo.env_sized 1920 1080);
     mime_ParseMediaType := mime_ParseMediaType (demo.env_sized 1920 1080);
     ffprobe := ffprobe (demo.env_sized 1920 1080);
     json_Unmarshal := json_Unmarshal (demo.env_sized 1920 1080);
     rand_stream := rand_stream (demo.env_sized 1920 1080);
     rand_err := None;
     temp_suffixes := temp_suffixes (demo.env_sized 1920 1080);
     GetVideo_err := None; UpdateVideo_err := update; PutObject_err := put;
     CreateTemp_err := None; Create_err := create; Copy_err := copy; Seek_err := None |}.

(** Whether a fallible call succeeded. *)
Definition is_Ok {A} (x : result A) : bool :=
  match x with
  | Ok _ => true
  | Err _ => false
  end.

(** The URL the thumbnail flow writes: the local host, the configured
    port, and the file name (token and extension) under [/assets/]. *)
Definition thumbnail_url (cfg : apiConfig) (b : list byte) (ext : string) : string :=
  "http://localhost:" ++ port cfg ++ "/assets/" ++ base64.EncodeToString b ++ ext.

(** The bytes the thumbnail handler names the file with: what
    [rand.Read] left in the buffer, whose error the handler ignores. *)
Definition thumbnail_token_bytes (env : Env) : list byte :=
  match rand_err env with
  | Some _ => repeat x00 32
  | None => map (rand_stream env) (seq 0 32)
  end.

(** * Properties *)


(** ** Integer division *)

Lemma wrap_int_id (x : Z) : is_int x -> wrap_int x = x.
Proof.
  unfold is_int, wrap_int, int_min, int_max. intros H.
  rewrite Z.mod_small by lia. lia.
Qed.

Lemma quot_pos_bounds (x y : Z) : (0 < x)%Z -> (0 < y)%Z -> (0 <= x `quot` y <= x)%Z.
Proof.
  intros Hx Hy. rewrite Z.quot_div_nonneg by lia. split.
  - apply Z.div_pos; lia.
  - apply Z.div_le_upper_bound; nia.
Qed.

Lemma int_div_pos (x y : Z) :
  (0 < x <= int_max)%Z -> (0 < y <= int_max)%Z -> int_div x y = Some (x `quot` y)%Z.
Proof.
  intros Hx Hy. unfold int_div. destruct (decide (y = 0%Z)) as [->|_]; [lia|].
  f_equal. apply wrap_int_id. pose proof (quot_pos_bounds x y).
  unfold is_int, int_min, int_max in *. lia.
Qed.

Lemma int_div_zero (x : Z) : int_div x 0 = None.
Proof. reflexivity. Qed.

Lemma int_div_of_zero (y : Z) : y <> 0%Z -> int_div 0 y = Some 0%Z.
Proof.
  intros Hy. unfold int_div. destruct (decide (y = 0%Z)); [done|].
  by rewrite Z.quot_0_l.
Qed.

Lemma int_div_nonzero (x y : Z) : y <> 0%Z -> is_Some (int_div x y).
Proof. intros Hy. unfold int_div. destruct (decide (y = 0%Z)); [done|eauto]. Qed.

(** ** The classifier *)

Lemma compareSides_world (file : Response) (w : World) : (compareSides file w).2 = w.
Proof.
  unfold compareSides, index, quo, mbind, M_bind, bind, mret, M_ret, ret, panic.
  destruct (Streams file !! 0) as [s|]; simpl; [|done].
  destruct (int_div (Width s) (Height s)); simpl; [|done].
  destruct (decide _); simpl; [done|].
  destruct (int_div (Height s) (Width s)); simpl; [|done].
  by destruct (decide _).
Qed.

Lemma getVideoAspectRatio_decoded env filePath w file :
  probes_to env w filePath file ->
  getVideoAspectRatio env filePath w = ((compareSides file (probed filePath w)).1, probed filePath w).
Proof.
  intros [Hrun Hdec]. unfold getVideoAspectRatio, exec.Run, log.Printf, call.
  unfold mbind, M_bind, bind. simpl.
  destruct (ffprobe env (files w !! filePath)) as [err b] eqn:E. simpl in *.
  rewrite Hrun, Hdec. fold (probed filePath w).
  rewrite <- (compareSides_world file (probed filePath w)) at 3.
  by destruct (compareSides file (probed filePath w)).
Qed.

Lemma compareSides_first (s : StreamInfo) (rest : list StreamInfo) (w : World) :
  (compareSides (mkResponse (s :: rest)) w).1 =
  match int_div (Width s) (Height s) with
  | None => Panicked "integer divide by zero"
  | Some q =>
      if decide (q = 1%Z) then Returned ("16:9", None)
      else match int_div (Height s) (Width s) with
           | None => Panicked "integer divide by zero"
           | Some q' =>
               if decide (q' = 1%Z) then Returned ("9:16", None)
               else Returned ("other", None)
           end
  end.
Proof.
  unfold compareSides, index, quo, mbind, M_bind, bind, mret, M_ret, ret, panic. simpl.
  destruct (int_div (Width s) (Height s)) as [q|]; simpl; [|done].
  change (16 `quot` 9)%Z with 1%Z.
  destruct (decide (q = 1%Z)); simpl; [done|].
  destruct (int_div (Height s) (Width s)) as [q'|]; simpl; [|done].
  by destruct (decide (q' = 1%Z)).
Qed.

Lemma compareSides_empty (w : World) :
  (compareSides (mkResponse []) w).1 = Panicked "index out of range".
Proof. reflexivity. Qed.

(** C1: for positive sides of the first stream, the classifier returns
    "16:9" exactly when width / height is 1 under truncating division,
    "9:16" exactly when it is not and height / width is 1, and "other" in
    the remaining cases; the handler's switch turns these into the labels
    landscape, portrait and other. *)
Theorem C1_classifier_truncating_division
    (env : Env) (filePath : string) (w : World) (wd ht : Z) (rest : list StreamInfo) :
  probes_to env w filePath (mkResponse (mkStream wd ht :: rest)) ->
  (0 < wd <= int_max)%Z -> (0 < ht <= int_max)%Z ->
  ∃ aspectRatio : string,
    (getVideoAspectRatio env filePath w).1 = Returned (aspectRatio, None)
    ∧ (aspectRatio = "16:9" ↔ (wd `quot` ht = 1)%Z)
    ∧ (aspectRatio = "9:16" ↔ (wd `quot` ht ≠ 1 ∧ ht `quot` wd = 1)%Z)
    ∧ (aspectRatio = "other" ↔ (wd `quot` ht ≠ 1 ∧ ht `quot` wd ≠ 1)%Z)
    ∧ (videoTypeOf aspectRatio = "landscape" ↔ (wd `quot` ht = 1)%Z)
    ∧ (videoTypeOf aspectRatio = "portrait" ↔ (wd `quot` ht ≠ 1 ∧ ht `quot` wd = 1)%Z)
    ∧ (videoTypeOf aspectRatio = "other" ↔ (wd `quot` ht ≠ 1 ∧ ht `quot` wd ≠ 1)%Z).
Proof.
  intros Hp Hw Hh.
  rewrite (getVideoAspectRatio_decoded _ _ _ _ Hp). cbn [fst].
  rewrite compareSides_first. cbn [Width Height].
  rewrite (int_div_pos wd ht Hw Hh), (int_div_pos ht wd Hh Hw).
  destruct (decide (wd `quot` ht = 1)%Z) as [Hl|Hl].
  - exists "16:9". unfold videoTypeOf. simpl. intuition (try done).
  - destruct (decide (ht `quot` wd = 1)%Z) as [Hq|Hq].
    + exists "9:16". unfold videoTypeOf. simpl. intuition (try done).
    + exists "other". unfold videoTypeOf. simpl. intuition (try done).
Qed.

Lemma C1_witness :
  probes_to (demo.env_sized 1920 1080) demo.world demo.tempName
    (mkResponse (mkStream 1920 1080 :: []))
  ∧ (0 < 1920 <= int_max)%Z ∧ (0 < 1080 <= int_max)%Z
  ∧ ∃ aspectRatio : string,
    (getVideoAspectRatio (demo.env_sized 1920 1080) demo.tempName demo.world).1
      = Returned (aspectRatio, None)
    ∧ (aspectRatio = "16:9" ↔ (1920 `quot` 1080 = 1)%Z)
    ∧ (aspectRatio = "9:16" ↔ (1920 `quot` 1080 ≠ 1 ∧ 1080 `quot` 1920 = 1)%Z)
    ∧ (aspectRatio = "other" ↔ (1920 `quot` 1080 ≠ 1 ∧ 1080 `quot` 1920 ≠ 1)%Z)
    ∧ (videoTypeOf aspectRatio = "landscape" ↔ (1920 `quot` 1080 = 1)%Z)
    ∧ (videoTypeOf aspectRatio = "portrait"
       ↔ (1920 `quot` 1080 ≠ 1 ∧ 1080 `quot` 1920 = 1)%Z)
    ∧ (videoTypeOf aspectRatio = "other"
       ↔ (1920 `quot` 1080 ≠ 1 ∧ 1080 `quot` 1920 ≠ 1)%Z).
Proof.
  assert (Hp : probes_to (demo.env_sized 1920 1080) demo.world demo.tempName
                 (mkResponse (mkStream 1920 1080 :: []))) by (split; reflexivity).
  assert (Hw : (0 < 1920 <= int_max)%Z) by (unfold int_max; lia).
  assert (Hh : (0 < 1080 <= int_max)%Z) by (unfold int_max; lia).
  exact (conj Hp (conj Hw (conj Hh
    (C1_classifier_truncating_division _ _ _ _ _ _ Hp Hw Hh)))).
Defined.

Lemma labelled_inj o l1 l2 : labelled o l1 -> labelled o l2 -> l1 = l2.
Proof. intros (a1 & -> & <-) (a2 & [= <-] & <-). done. Qed.

Lemma labelled_sized env filePath w wd ht rest label :
  probes_to env w filePath (mkResponse (mkStream wd ht :: rest)) ->
  (compareSides (mkResponse [mkStream wd ht]) w).1 = Returned (label, None) ->
  labelled (getVideoAspectRatio env filePath w).1 (videoTypeOf label).
Proof.
  intros Hp Hc. exists label. split; [|done].
  rewrite (getVideoAspectRatio_decoded _ _ _ _ Hp). cbn [fst].
  rewrite compareSides_first in *. done.
Qed.

(** C2, as amended: on the four concrete pairs the handler derives
    (1920,1080) -> landscape, (1080,1920) -> portrait, and landscape for
    both (1000,999) and (100,100), whose quotient width / height is 1. *)
Theorem C2_concrete_pairs
    (env : Env) (filePath : string) (w : World) (wd ht : Z) (rest : list StreamInfo) :
  probes_to env w filePath (mkResponse (mkStream wd ht :: rest)) ->
  ((wd, ht) = (1920, 1080)%Z -> labelled (getVideoAspectRatio env filePath w).1 "landscape")
  ∧ ((wd, ht) = (1080, 1920)%Z -> labelled (getVideoAspectRatio env filePath w).1 "portrait")
  ∧ ((wd, ht) = (1000, 999)%Z -> labelled (getVideoAspectRatio env filePath w).1 "landscape")
  ∧ ((wd, ht) = (100, 100)%Z -> labelled (getVideoAspectRatio env filePath w).1 "landscape").
Proof.
  intros Hp. repeat split; intros [= -> ->].
  - by apply (labelled_sized _ _ _ _ _ _ "16:9" Hp).
  - by apply (labelled_sized _ _ _ _ _ _ "9:16" Hp).
  - by apply (labelled_sized _ _ _ _ _ _ "16:9" Hp).
  - by apply (labelled_sized _ _ _ _ _ _ "16:9" Hp).
Qed.

Lemma C2_witness :
  probes_to (demo.env_sized 1000 999) demo.world demo.tempName
    (mkResponse (mkStream 1000 999 :: []))
  ∧ labelled (getVideoAspectRatio (demo.env_sized 1000 999) demo.tempName demo.world).1
      "landscape".
Proof.
  assert (Hp : probes_to (demo.env_sized 1000 999) demo.world demo.tempName
                 (mkResponse (mkStream 1000 999 :: []))) by (split; reflexivity).
  split; [exact Hp|].
  exact (proj1 (proj2 (proj2 (C2_concrete_pairs _ _ _ _ _ _ Hp))) eq_refl).
Defined.

(** C2 as stated fails: for (1000,999) and for (100,100) the derived label
    is not other. *)
Lemma C2_counterexample :
  ¬ labelled (getVideoAspectRatio (demo.env_sized 1000 999) demo.tempName demo.world).1 "other"
  ∧ ¬ labelled (getVideoAspectRatio (demo.env_sized 100 100) demo.tempName demo.world).1 "other".
Proof.
  split; intros (a & Ha & Hl); vm_compute in Ha; injection Ha as <-; discriminate Hl.
Qed.

(** C10: the divisions are unguarded. The classifier returns exactly when
    both sides of the first stream are nonzero; with a zero height, or a
    nonzero height and a zero width, it panics on the division by zero
    instead of returning an error or the label other. *)
Theorem C10_unguarded_division
    (env : Env) (filePath : string) (w : World) (wd ht : Z) (rest : list StreamInfo) :
  probes_to env w filePath (mkResponse (mkStream wd ht :: rest)) ->
  ((∃ r, (getVideoAspectRatio env filePath w).1 = Returned r) ↔ (wd ≠ 0 ∧ ht ≠ 0)%Z)
  ∧ (ht = 0%Z ->
     (getVideoAspectRatio env filePath w).1 = Panicked "integer divide by zero")
  ∧ (ht ≠ 0%Z -> wd = 0%Z ->
     (getVideoAspectRatio env filePath w).1 = Panicked "integer divide by zero").
Proof.
  intros Hp. rewrite (getVideoAspectRatio_decoded _ _ _ _ Hp). cbn [fst].
  rewrite compareSides_first. cbn [Width Height].
  destruct (decide (ht = 0%Z)) as [->|Hh].
  - rewrite int_div_zero. split; [|by split].
    split; [intros [r Hr]; discriminate Hr | intros [_ []]; done].
  - destruct (decide (wd = 0%Z)) as [->|Hw].
    + rewrite (int_div_of_zero ht Hh), int_div_zero.
      destruct (decide (0 = 1)%Z); [done|].
      split; [|by split].
      split; [intros [r Hr]; discriminate Hr | intros [[] _]; done].
    + destruct (int_div_nonzero wd ht Hh) as [q ->].
      destruct (int_div_nonzero ht wd Hw) as [q' ->].
      split; [|by split].
      split; [done|]. intros _.
      destruct (decide (q = 1%Z)); [eauto|]. destruct (decide (q' = 1%Z)); eauto.
Qed.

Lemma C10_witness :
  probes_to (demo.env_sized 1920 0) demo.world demo.tempName
    (mkResponse (mkStream 1920 0 :: []))
  ∧ ((∃ r, (getVideoAspectRatio (demo.env_sized 1920 0) demo.tempName demo.world).1
            = Returned r) ↔ (1920 ≠ 0 ∧ 0 ≠ 0)%Z)
  ∧ (0%Z = 0%Z ->
     (getVideoAspectRatio (demo.env_sized 1920 0) demo.tempName demo.world).1
       = Panicked "integer divide by zero")
  ∧ (0%Z ≠ 0%Z -> 1920%Z = 0%Z ->
     (getVideoAspectRatio (demo.env_sized 1920 0) demo.tempName demo.world).1
       = Panicked "integer divide by zero").
Proof.
  assert (Hp : probes_to (demo.env_sized 1920 0) demo.world demo.tempName
                 (mkResponse (mkStream 1920 0 :: []))) by (split; reflexivity).
  exact (conj Hp (C10_unguarded_division _ _ _ _ _ _ Hp)).
Defined.

(** ** Fatal logging inside the classifier *)

Lemma getVideoAspectRatio_exit_status env filePath w :
  errors_As_ExitError (ffprobe env (files w !! filePath)).1 = true ->
  getVideoAspectRatio env filePath w
  = (Exited 1, record_call (EvLog "Couldn't run command") (probed filePath w)).
Proof.
  intros Hrun. unfold getVideoAspectRatio, exec.Run, log.Printf, log.Fatal, call, os.Exit.
  unfold mbind, M_bind, bind. simpl.
  destruct (ffprobe env (files w !! filePath)) as [err b]. simpl in *.
  by rewrite Hrun.
Qed.

Lemma getVideoAspectRatio_undecodable env filePath w e :
  errors_As_ExitError (ffprobe env (files w !! filePath)).1 = false ->
  json_Unmarshal env (ffprobe env (files w !! filePath)).2 = Err e ->
  getVideoAspectRatio env filePath w
  = (Exited 1, record_call (EvLog "Couldn't unmarshal") (probed filePath w)).
Proof.
  intros Hrun Hdec. unfold getVideoAspectRatio, exec.Run, log.Printf, log.Fatal, call, os.Exit.
  unfold mbind, M_bind, bind. simpl.
  destruct (ffprobe env (files w !! filePath)) as [err b]. simpl in *.
  by rewrite Hrun, Hdec.
Qed.

(** The two [return "", err] statements are never reached: whatever the
    prober does, the classifier does not return an error. *)
Lemma getVideoAspectRatio_returns_no_error env filePath w aspectRatio e :
  (getVideoAspectRatio env filePath w).1 ≠ Returned (aspectRatio, Some e).
Proof.
  destruct (errors_As_ExitError (ffprobe env (files w !! filePath)).1) eqn:Hrun.
  { by rewrite getVideoAspectRatio_exit_status. }
  destruct (json_Unmarshal env (ffprobe env (files w !! filePath)).2) as [file|e'] eqn:Hdec.
  2: { by rewrite (getVideoAspectRatio_undecodable _ _ _ e'). }
  rewrite (getVideoAspectRatio_decoded env filePath w file) by done. cbn [fst].
  destruct file as [[|s rest]]; [done|].
  rewrite compareSides_first.
  destruct (int_div (Width s) (Height s)) as [q|]; [|done].
  destruct (decide (q = 1%Z)); [done|].
  destruct (int_div (Height s) (Width s)) as [q'|]; [|done].
  by destruct (decide (q' = 1%Z)).
Qed.

(** C3, at the failing inputs: an upload on which the prober exits with
    status 1, and one on which its output does not decode. In both the
    classifier ends the process with status 1 instead of returning an
    error, and the handler writes no response: there is no status 500. *)
Theorem C3_probe_failure_exits_process :
  (getVideoAspectRatio (demo.env (Some (ExitError 1)) (Err "unexpected end of JSON input"))
     demo.tempName demo.world).1 = Exited 1
  ∧ (handlerUploadVideo (demo.env (Some (ExitError 1)) (Err "unexpected end of JSON input"))
       demo.cfg (demo.upload "video" "owner-token" "video/mp4" 500) demo.world).1 = Exited 1
  ∧ status (handlerUploadVideo (demo.env (Some (ExitError 1)) (Err "unexpected end of JSON input"))
       demo.cfg (demo.upload "video" "owner-token" "video/mp4" 500) demo.world).2 = None
  ∧ (getVideoAspectRatio (demo.env None (Err "invalid character"))
       demo.tempName demo.world).1 = Exited 1
  ∧ (handlerUploadVideo (demo.env None (Err "invalid character"))
       demo.cfg (demo.upload "video" "owner-token" "video/mp4" 500) demo.world).1 = Exited 1
  ∧ status (handlerUploadVideo (demo.env None (Err "invalid character"))
       demo.cfg (demo.upload "video" "owner-token" "video/mp4" 500) demo.world).2 = None.
Proof. repeat split; vm_compute; reflexivity. Qed.

(** C4, at the failing input: the prober succeeds and its output decodes
    to an empty stream list. The index expression panics; the handler
    does not return and writes no response: there is no status 500. *)
Theorem C4_empty_stream_list_panics :
  (getVideoAspectRatio (demo.env None (Ok (mkResponse []))) demo.tempName demo.world).1
    = Panicked "index out of range"
  ∧ (handlerUploadVideo (demo.env None (Ok (mkResponse [])))
       demo.cfg (demo.upload "video" "owner-token" "video/mp4" 500) demo.world).1
    = Panicked "index out of range"
  ∧ status (handlerUploadVideo (demo.env None (Ok (mkResponse [])))
       demo.cfg (demo.upload "video" "owner-token" "video/mp4" 500) demo.world).2 = None.
Proof. repeat split; vm_compute; reflexivity. Qed.

(** C5, at the failing input: the temporary file was created (it did not
    exist before), the prober exits with status 1, the process ends
    inside the classifier, and the temporary file is still there with the
    uploaded bytes: the deferred removal has not run. *)
Theorem C5_temp_file_left_behind :
  files demo.world !! demo.tempName = None
  ∧ (handlerUploadVideo (demo.env (Some (ExitError 1)) (Err "unexpected end of JSON input"))
       demo.cfg (demo.upload "video" "owner-token" "video/mp4" 500) demo.world).1 = Exited 1
  ∧ files (handlerUploadVideo (demo.env (Some (ExitError 1)) (Err "unexpected end of JSON input"))
       demo.cfg (demo.upload "video" "owner-token" "video/mp4" 500) demo.world).2
      !! demo.tempName = Some [x00; x01; x02; x03].
Proof. repeat split; vm_compute; reflexivity. Qed.

(** ** Symbolic runs of the handlers *)

Ltac step :=
  match goal with
  | |- context [match ?x with _ => _ end] =>
      lazymatch x with
      | context [match _ with _ => _ end] => fail
      | _ => destruct x eqn:?
      end
  end.

Ltac unfold_run :=
  unfold handlerUploadVideo, handlerUploadThumbnail, getVideoAspectRatio, compareSides,
    respondWithError, respondWithJSON,
    db.GetVideo, db.UpdateVideo, s3.PutObject, os.CreateTemp, os.Create, os.Remove, os.Close,
    os.Seek, io.Copy, rand.Read, log.Printf, log.Fatal, exec.Run, multipart_Close,
    index, quo, call, os.Exit, panic, defer, mbind, M_bind, bind, mret, M_ret, ret.

#[local] Arguments base64.EncodeToString : simpl never.
#[local] Arguments hex.EncodeToString : simpl never.

Ltac same_lhs :=
  simplify_eq;
  repeat match goal with
         | H1 : ?x = _, H2 : ?x = _ |- _ => rewrite H1 in H2; simplify_eq
         end.

Tactic Notation "run" "pruning" tactic3(t) :=
  repeat (step; simpl; simplify_eq; try contradiction; try solve [t]).

Ltac since_tac := repeat (apply since_call; [exact I|]); apply since_base.

Lemma CreateTemp_fresh (w : World) (names : list string) (s : string) :
  find (λ name, negb (os.exists_ w name)) names = Some s -> files w !! s = None.
Proof.
  intros H. apply find_some in H as [_ H]. unfold os.exists_ in H.
  by destruct (files w !! s).
Qed.

(** The calls made since the trace stood at [base], newest first. *)
Ltac prefix_of l base :=
  lazymatch l with
  | base => constr:(@nil Event)
  | ?e :: ?l' => let r := prefix_of l' base in constr:(e :: r)
  end.

Ltac split_trace :=
  lazymatch goal with
  | |- ∃ evs : list Event, ?l = (evs ++ ?base)%list ∧ _ =>
      let p := prefix_of l base in exists p; split; [reflexivity|]
  end.

(** The deferred removal does its work on every path on which the handler
    returns or panics: the temporary file the handler created is then
    gone. Only a process exit leaves it behind. *)
Lemma temp_file_removed_unless_exit env cfg r w :
  ∃ evs : list Event,
    calls (handlerUploadVideo env cfg r w).2 = (evs ++ calls w)%list
    ∧ ∀ name : string,
        In (EvCreateTemp name) evs ->
        (∀ c, (handlerUploadVideo env cfg r w).1 ≠ Exited c) ->
        files (handlerUploadVideo env cfg r w).2 !! name = None.
Proof.
  unfold_run.
  repeat (step; simpl).
  all: split_trace.
  all: intros name Hin Hex; simpl in Hin; try (intuition discriminate).
  all: try (exfalso; by apply (Hex 1%Z)).
  all: repeat match goal with H : _ ∨ _ |- _ => destruct H as [H|H]; try discriminate H end.
  all: try done.
  all: injection Hin as <-.
  all: try (unfold os.exists_ in *; simpl in *; rewrite lookup_insert_eq in *; discriminate).
  all: by rewrite lookup_delete_eq.
Qed.

(** ** The ownership gate *)

(** C6, as amended: when the authenticated caller is not the owner of the
    record, neither handler mutates the record or calls the updater. The
    video handler answers 401 whatever the upload holds. The thumbnail
    handler checks the form and the declared content type before it
    fetches the record: it answers 401 when the upload passes these
    checks and 400 when it does not. *)
Theorem C6_non_owner
    (env : Env) (cfg : apiConfig) (r : Request) (w : World) (userID : UUID) (v : Video) :
  authenticated env cfg r userID ->
  fetches env r w v ->
  userID ≠ UserID v ->
  ((handlerUploadVideo env cfg r w).1 = Returned tt
   ∧ responses (handlerUploadVideo env cfg r w).2
     = (responses w ++ [mkHTTP StatusUnauthorized
                          (ErrorBody "Unauthorized: must be video's owner")])%list
   ∧ store (handlerUploadVideo env cfg r w).2 = store w
   ∧ since (calls w) not_update (calls (handlerUploadVideo env cfg r w).2))
  ∧ ((handlerUploadThumbnail env cfg r w).1 = Returned tt
     ∧ store (handlerUploadThumbnail env cfg r w).2 = store w
     ∧ since (calls w) not_update (calls (handlerUploadThumbnail env cfg r w).2)
     ∧ ∃ (code : Z) (msg : string),
         responses (handlerUploadThumbnail env cfg r w).2
         = (responses w ++ [mkHTTP code (ErrorBody msg)])%list
         ∧ (thumbnail_accepted env r -> code = StatusUnauthorized)
         ∧ (¬ thumbnail_accepted env r -> code = StatusBadRequest)).
Proof.
  intros (token & Htok & Hjwt) (videoID & Hid & Hget & Hv) Hne.
  unfold thumbnail_accepted, declared_type.
  split.
  - unfold_run. unfold MaxBytesReader, PathValue in *. simpl.
    rewrite Hid, Htok, Hjwt, Hget. simpl. rewrite Hv.
    destruct (decide (userID ≠ UserID v)); [|done]. simpl.
    repeat split; try done. since_tac.
  - unfold_run. unfold PathValue in *. rewrite Hid, Htok, Hjwt. simpl.
    run pruning fail.
    all: split; [done|]; split; [done|]; split; [since_tac|].
    all: eexists _, _; split; [reflexivity|].
    all: split; [intros (r' & h & mt & Hp & Hf & Hm & Hmt) | intros Hna]; try done.
    all: try (exfalso; apply Hna; eexists _, _, _; repeat (split; [eassumption|]);
              match goal with H : negb _ = false |- _ =>
                apply negb_false_iff, orb_true_iff in H;
                destruct H as [?%bool_decide_eq_true|?%bool_decide_eq_true]; by eauto end).
    all: exfalso; same_lhs.
    destruct Hmt as [-> | ->]; done.
Qed.

Lemma C6_witness :
  authenticated (demo.env_sized 1920 1080) demo.cfg
    (demo.upload "thumbnail" "other-token" "image/png" 500) 20
  ∧ fetches (demo.env_sized 1920 1080)
      (demo.upload "thumbnail" "other-token" "image/png" 500) demo.world demo.video
  ∧ 20%N ≠ UserID demo.video
  ∧ responses (handlerUploadVideo (demo.env_sized 1920 1080) demo.cfg
                 (demo.upload "thumbnail" "other-token" "image/png" 500) demo.world).2
    = (responses demo.world
       ++ [mkHTTP StatusUnauthorized (ErrorBody "Unauthorized: must be video's owner")])%list.
Proof.
  assert (Ha : authenticated (demo.env_sized 1920 1080) demo.cfg
                 (demo.upload "thumbnail" "other-token" "image/png" 500) 20)
    by (exists "other-token"; split; reflexivity).
  assert (Hf : fetches (demo.env_sized 1920 1080)
                 (demo.upload "thumbnail" "other-token" "image/png" 500)
                 demo.world demo.video)
    by (exists 1%N; repeat split; reflexivity).
  assert (Hn : 20%N ≠ UserID demo.video) by (simpl; lia).
  exact (conj Ha (conj Hf (conj Hn
    (proj1 (proj2 (proj1 (C6_non_owner _ _ _ _ _ _ Ha Hf Hn))))))).
Defined.

(** C6 as stated fails on the thumbnail handler: a caller who is not the
    owner and declares a content type outside the allow-list is answered
    400, not 401. *)
Lemma C6_counterexample :
  authenticated (demo.env_sized 1920 1080) demo.cfg
    (demo.upload "thumbnail" "other-token" "text/plain" 500) 20
  ∧ fetches (demo.env_sized 1920 1080)
      (demo.upload "thumbnail" "other-token" "text/plain" 500) demo.world demo.video
  ∧ 20%N ≠ UserID demo.video
  ∧ status (handlerUploadThumbnail (demo.env_sized 1920 1080) demo.cfg
              (demo.upload "thumbnail" "other-token" "text/plain" 500) demo.world).2
    = Some StatusBadRequest
  ∧ StatusBadRequest ≠ StatusUnauthorized.
Proof.
  split; [exists "other-token"; split; reflexivity|].
  split; [exists 1%N; repeat split; reflexivity|].
  split; [simpl; lia|]. split; [vm_compute; reflexivity|]. unfold StatusBadRequest, StatusUnauthorized. lia.
Qed.

(** ** The content-type check *)

(** C7, as amended: when the declared content type of the uploaded part is
    not in the handler's allow-list, the handler returns after writing one
    error response and never invokes the object-storage put, the local
    asset write or the record updater; the store is as before. The status
    is 400 whenever the checks that come first pass: for the video
    handler the credential, the record lookup and the ownership check,
    for the thumbnail handler the credential; otherwise it is the status
    of the check that failed. *)
Theorem C7_unrecognized_content_type
    (env : Env) (cfg : apiConfig) (r : Request) (w : World) :
  (∀ header : FileHeader,
     FormFile (MaxBytesReader r (Z.shiftl 1 30)) "video" = Ok header ->
     declared_type env header ≠ Ok "video/mp4" ->
     (handlerUploadVideo env cfg r w).1 = Returned tt
     ∧ since (calls w) no_put_write_update (calls (handlerUploadVideo env cfg r w).2)
     ∧ store (handlerUploadVideo env cfg r w).2 = store w
     ∧ ∃ (code : Z) (msg : string),
         responses (handlerUploadVideo env cfg r w).2
         = (responses w ++ [mkHTTP code (ErrorBody msg)])%list
         ∧ (code = StatusBadRequest ∨ code = StatusUnauthorized
            ∨ code = StatusInternalServerError)
         ∧ (∀ (userID : UUID) (v : Video),
              authenticated env cfg r userID -> fetches env r w v -> userID = UserID v ->
              code = StatusBadRequest))
  ∧ (∀ (r' : Request) (header : FileHeader),
       ParseMultipartForm r (Z.shiftl 10 20) = Ok r' ->
       FormFile r' "thumbnail" = Ok header ->
       declared_type env header ≠ Ok "image/png" ->
       declared_type env header ≠ Ok "image/jpeg" ->
       (handlerUploadThumbnail env cfg r w).1 = Returned tt
       ∧ since (calls w) no_put_write_update (calls (handlerUploadThumbnail env cfg r w).2)
       ∧ store (handlerUploadThumbnail env cfg r w).2 = store w
       ∧ ∃ (code : Z) (msg : string),
           responses (handlerUploadThumbnail env cfg r w).2
           = (responses w ++ [mkHTTP code (ErrorBody msg)])%list
           ∧ (code = StatusBadRequest ∨ code = StatusUnauthorized)
           ∧ (∀ userID : UUID, authenticated env cfg r userID -> code = StatusBadRequest)).
Proof.
  unfold declared_type, authenticated, fetches. split.
  - intros header HF Hct. unfold_run. rewrite HF.
    unfold MaxBytesReader, PathValue in *. simpl.
    run pruning (exfalso; match goal with n : ¬ ?x ≠ "video/mp4" |- _ =>
                            destruct (decide (x = "video/mp4")); [subst; congruence|done] end).
    all: split; [done|]; split; [since_tac|]; split; [done|].
    all: eexists _, _; split; [reflexivity|]; split; [tauto|].
    all: intros userID v' (token & Htok & Hjwt) (videoID & Hid & Hget & Hv) Hown; try done.
    all: exfalso; same_lhs; done.
  - intros r' header HP HF Hpng Hjpg. unfold_run. rewrite HP. simpl. rewrite HF. simpl.
    unfold PathValue in *.
    run pruning (exfalso; match goal with H : negb _ = false |- _ =>
                            apply negb_false_iff, orb_true_iff in H;
                            destruct H as [?%bool_decide_eq_true|?%bool_decide_eq_true];
                            subst; congruence end).
    all: split; [done|]; split; [since_tac|]; split; [done|].
    all: eexists _, _; split; [reflexivity|]; split; [tauto|].
    all: intros userID (token & Htok & Hjwt); try done.
    all: exfalso; same_lhs; done.
Qed.

Lemma C7_witness :
  FormFile (MaxBytesReader (demo.upload "video" "owner-token" "text/plain" 500) (Z.shiftl 1 30))
    "video"
  = Ok {| Filename := "upload.bin"; FHeader := {[ "Content-Type" := ["text/plain"] ]};
          Size := 4; content := [x00; x01; x02; x03]; tmpfile := false |}
  ∧ since (calls demo.world) no_put_write_update
      (calls (handlerUploadVideo (demo.env_sized 1920 1080) demo.cfg
                (demo.upload "video" "owner-token" "text/plain" 500) demo.world).2)
  ∧ status (handlerUploadVideo (demo.env_sized 1920 1080) demo.cfg
              (demo.upload "video" "owner-token" "text/plain" 500) demo.world).2
    = Some StatusBadRequest.
Proof.
  assert (HF : FormFile (MaxBytesReader (demo.upload "video" "owner-token" "text/plain" 500)
                           (Z.shiftl 1 30)) "video"
               = Ok {| Filename := "upload.bin";
                       FHeader := {[ "Content-Type" := ["text/plain"] ]};
                       Size := 4; content := [x00; x01; x02; x03]; tmpfile := false |})
    by (vm_compute; reflexivity).
  split; [exact HF|]. split.
  - refine (proj1 (proj2 (proj1 (C7_unrecognized_content_type (demo.env_sized 1920 1080)
              demo.cfg (demo.upload "video" "owner-token" "text/plain" 500) demo.world)
              _ HF _))).
    vm_compute. discriminate.
  - vm_compute; reflexivity.
Defined.

(** C7 as stated fails: a video upload with a content type outside the
    allow-list, sent by a caller who is not the owner, is answered 401 by
    the ownership check, which comes first. *)
Lemma C7_counterexample :
  FormFile (MaxBytesReader (demo.upload "video" "other-token" "text/plain" 500) (Z.shiftl 1 30))
    "video"
  = Ok {| Filename := "upload.bin"; FHeader := {[ "Content-Type" := ["text/plain"] ]};
          Size := 4; content := [x00; x01; x02; x03]; tmpfile := false |}
  ∧ declared_type (demo.env_sized 1920 1080)
      {| Filename := "upload.bin"; FHeader := {[ "Content-Type" := ["text/plain"] ]};
         Size := 4; content := [x00; x01; x02; x03]; tmpfile := false |}
    = Ok "text/plain"
  ∧ status (handlerUploadVideo (demo.env_sized 1920 1080) demo.cfg
              (demo.upload "video" "other-token" "text/plain" 500) demo.world).2
    = Some StatusUnauthorized
  ∧ StatusUnauthorized ≠ StatusBadRequest.
Proof.
  split; [vm_compute; reflexivity|]. split; [vm_compute; reflexivity|].
  split; [vm_compute; reflexivity|]. unfold StatusUnauthorized, StatusBadRequest. lia.
Qed.

(** ** The storage key and the URL *)

Lemma hex_cons (v : byte) (b : list byte) :
  hex.EncodeToString (v :: b)
  = String (hex.digit (N.shiftr (Byte.to_N v) 4))
      (String (hex.digit (N.land (Byte.to_N v) 15)) (hex.EncodeToString b)).
Proof. reflexivity. Qed.

Lemma hex_length (b : list byte) :
  String.length (hex.EncodeToString b) = 2 * length b.
Proof. induction b as [|v b IH]; [done|]. rewrite hex_cons. simpl. rewrite IH. lia. Qed.

Lemma hex_byte_roundtrip (v : byte) :
  hex.fromHexChar (hex.digit (N.shiftr (Byte.to_N v) 4)) = Some (N.shiftr (Byte.to_N v) 4)
  ∧ hex.fromHexChar (hex.digit (N.land (Byte.to_N v) 15)) = Some (N.land (Byte.to_N v) 15)
  ∧ Byte.of_N (N.lor (N.shiftl (N.shiftr (Byte.to_N v) 4) 4) (N.land (Byte.to_N v) 15))
    = Some v
  ∧ hex.is_lower_hex (hex.digit (N.shiftr (Byte.to_N v) 4)) = true
  ∧ hex.is_lower_hex (hex.digit (N.land (Byte.to_N v) 15)) = true.
Proof. destruct v; vm_compute; done. Qed.

Lemma hex_roundtrip (b : list byte) :
  hex.DecodeString (hex.EncodeToString b) = Some b.
Proof.
  induction b as [|v b IH]; [done|].
  destruct (hex_byte_roundtrip v) as (Hhi & Hlo & Hv & _).
  rewrite hex_cons. cbn [hex.DecodeString]. by rewrite Hhi, Hlo, IH, Hv.
Qed.

Lemma hex_lower (b : list byte) :
  forallb hex.is_lower_hex (list_ascii_of_string (hex.EncodeToString b)) = true.
Proof.
  induction b as [|v b IH]; [done|].
  destruct (hex_byte_roundtrip v) as (_ & _ & _ & Hhi & Hlo).
  rewrite hex_cons. cbn [list_ascii_of_string forallb]. by rewrite Hhi, Hlo, IH.
Qed.

(** The classifier only adds to the trace: it leaves the store, the files
    and the responses alone. *)
Lemma getVideoAspectRatio_frame env filePath w :
  store (getVideoAspectRatio env filePath w).2 = store w
  ∧ files (getVideoAspectRatio env filePath w).2 = files w
  ∧ responses (getVideoAspectRatio env filePath w).2 = responses w.
Proof.
  destruct (errors_As_ExitError (ffprobe env (files w !! filePath)).1) eqn:Hrun.
  { by rewrite getVideoAspectRatio_exit_status. }
  destruct (json_Unmarshal env (ffprobe env (files w !! filePath)).2) as [file|e'] eqn:Hdec.
  2: { by rewrite (getVideoAspectRatio_undecodable _ _ _ e'). }
  by rewrite (getVideoAspectRatio_decoded env filePath w file).
Qed.

Ltac unfold_calls :=
  unfold respondWithError, respondWithJSON,
    db.GetVideo, db.UpdateVideo, s3.PutObject, os.CreateTemp, os.Create, os.Remove, os.Close,
    os.Seek, io.Copy, rand.Read, log.Printf, log.Fatal, exec.Run, multipart_Close,
    index, quo, call, os.Exit, panic, defer, mbind, M_bind, bind, mret, M_ret, ret.

Lemma PathValue_MaxBytesReader (r : Request) (n : Z) (name : string) :
  PathValue (MaxBytesReader r n) name = PathValue r name.
Proof. reflexivity. Qed.

Lemma Header_MaxBytesReader (r : Request) (n : Z) : Header (MaxBytesReader r n) = Header r.
Proof. reflexivity. Qed.

(** C8: on a successful run of the video handler (a fresh response writer
    ends with status 200) the record handed to the updater, stored and
    sent back is the fetched record with [videoURL] set to
    https://{bucket}.s3.{region}.amazonaws.com/{classification}/{hex}.mp4,
    where {hex} is the 64 lower-case hexadecimal characters that encode
    the 32 bytes read from the random source for this request and
    {classification} is the label derived by the classifier from the
    buffered upload; the other fields are those of the fetched record. *)
Theorem C8_video_url (env : Env) (cfg : apiConfig) (r : Request) (w : World) :
  responses w = [] ->
  status (handlerUploadVideo env cfg r w).2 = Some StatusOK ->
  ∃ (v : Video) (header : FileHeader) (tempFile : string) (w1 : World)
    (classification : string) (b : list byte),
    fetches env r w v
    ∧ FormFile (MaxBytesReader r (Z.shiftl 1 30)) "video" = Ok header
    ∧ files w1 !! tempFile = Some (content header)
    ∧ labelled (getVideoAspectRatio env tempFile w1).1 classification
    ∧ b = map (rand_stream env) (seq 0 32)
    ∧ length b = 32
    ∧ String.length (hex.EncodeToString b) = 64
    ∧ hex.DecodeString (hex.EncodeToString b) = Some b
    ∧ forallb hex.is_lower_hex (list_ascii_of_string (hex.EncodeToString b)) = true
    ∧ (handlerUploadVideo env cfg r w).1 = Returned tt
    ∧ responses (handlerUploadVideo env cfg r w).2
      = [mkHTTP StatusOK (VideoBody (set_VideoURL v (video_url cfg classification b)))]
    ∧ In (EvUpdateVideo (set_VideoURL v (video_url cfg classification b)))
        (calls (handlerUploadVideo env cfg r w).2)
    ∧ (is_Some (store w !! ID v) ->
       store (handlerUploadVideo env cfg r w).2
       = <[ID v := set_VideoURL v (video_url cfg classification b)]> (store w))
    ∧ VideoURL (set_VideoURL v (video_url cfg classification b))
      = Some (video_url cfg classification b)
    ∧ ID (set_VideoURL v (video_url cfg classification b)) = ID v
    ∧ UserID (set_VideoURL v (video_url cfg classification b)) = UserID v
    ∧ Title (set_VideoURL v (video_url cfg classification b)) = Title v
    ∧ Description (set_VideoURL v (video_url cfg classification b)) = Description v
    ∧ ThumbnailURL (set_VideoURL v (video_url cfg classification b)) = ThumbnailURL v.
Proof.
  intros Hresp.
  unfold handlerUploadVideo. unfold_calls.
  rewrite PathValue_MaxBytesReader, Header_MaxBytesReader. simpl.
  run pruning fail.
  all: repeat match goal with
       | H : getVideoAspectRatio ?e ?p ?w1 = (_, ?w2) |- _ =>
           lazymatch goal with
           | _ : store w2 = _ |- _ => fail
           | _ => destruct (getVideoAspectRatio_frame e p w1) as (Hst & Hfi & Hre);
                  rewrite H in Hst, Hfi, Hre; simpl in Hst, Hfi, Hre
           end
       end.
  all: unfold status, os.exists_ in *; simpl in *; rewrite ?Hre, ?Hresp in *; simpl in *.
  all: try (intros [=]; fail).
  all: intros _.
  all: try (rewrite Hfi, lookup_insert_eq in *; discriminate).
  all: match goal with
       | H : getVideoAspectRatio _ ?p ?w1 = (Returned (?a, None), _),
         Hid : uuid_Parse _ _ = Ok ?id, Hv : store _ !! ?id = Some ?v, HF : FormFile _ _ = Ok ?h |- _ =>
           exists v, h, p, w1, (videoTypeOf a), (map (rand_stream env) (seq 0 32));
           assert (Hlab : labelled (getVideoAspectRatio env p w1).1 (videoTypeOf a))
             by (exists a; by rewrite H)
       end.
  all: split; [eexists; by eauto|]; split; [done|].
  all: split; [simpl; by rewrite !lookup_insert_eq|]; split; [exact Hlab|].
  all: split; [done|]; split; [done|]; split; [by rewrite hex_length|].
  all: split; [apply hex_roundtrip|]; split; [apply hex_lower|]; split; [done|].
  all: split; [done|]; split; [simpl; tauto|].
  all: split; [|done].
  all: rewrite <- ?Hst; try done.
  all: intros [? ?]; congruence.
Qed.

Lemma C8_witness :
  responses demo.world = []
  ∧ status (handlerUploadVideo (demo.env_sized 1920 1080) demo.cfg
              (demo.upload "video" "owner-token" "video/mp4" 500) demo.world).2
    = Some StatusOK
  ∧ ∃ (v : Video) (classification : string) (b : list byte),
      length b = 32
      ∧ responses (handlerUploadVideo (demo.env_sized 1920 1080) demo.cfg
                     (demo.upload "video" "owner-token" "video/mp4" 500) demo.world).2
        = [mkHTTP StatusOK (VideoBody (set_VideoURL v (video_url demo.cfg classification b)))].
Proof.
  assert (H1 : responses demo.world = []) by reflexivity.
  assert (H2 : status (handlerUploadVideo (demo.env_sized 1920 1080) demo.cfg
                         (demo.upload "video" "owner-token" "video/mp4" 500) demo.world).2
               = Some StatusOK) by (vm_compute; reflexivity).
  split; [exact H1|]. split; [exact H2|].
  destruct (C8_video_url _ _ _ _ H1 H2)
    as (v & _ & _ & _ & c & b & _ & _ & _ & _ & _ & Hlen & _ & _ & _ & _ & Hr & _).
  exists v, c, b. split; [exact Hlen | exact Hr].
Defined.

(** The run of the witness, spelled out. *)
Example video_url_demo :
  VideoURL <$> store (handlerUploadVideo (demo.env_sized 1920 1080) demo.cfg
                        (demo.upload "video" "owner-token" "video/mp4" 500) demo.world).2
                 !! 1%N
  = Some (Some ("https://tubely.s3.us-east-2.amazonaws.com/landscape/"
                ++ "000102030405060708090a0b0c0d0e0f101112131415161718191a1b1c1d1e1f.mp4")).
Proof. vm_compute. reflexivity. Qed.

(** ** The size of the thumbnail request *)




(** The video handler does cap its body: one byte over 1 GiB and the form
    is refused. *)
Example video_body_cap :
  status (handlerUploadVideo (demo.env_sized 1920 1080) demo.cfg
            (demo.upload "video" "owner-token" "video/mp4" (2 ^ 30 + 1)) demo.world).2
  = Some StatusBadRequest.
Proof. vm_compute. reflexivity. Qed.

(** A file part larger than the memory limit is kept, on disk. *)
Example readForm_spills :
  readForm [mkPart "thumbnail" "a.png" ∅ [x00; x01; x02; x03]] 3 13 (mkForm ∅ ∅)
  = Ok (mkForm ∅ {[ "thumbnail" := [mkFileHeader "a.png" ∅ 4 [x00; x01; x02; x03] true] ]}).
Proof. vm_compute. reflexivity. Qed.

(** * Further properties of the handlers *)

Ltac pick := solve [repeat (first [reflexivity | left; reflexivity | right])].

(** ** The bands of the classifier *)

Lemma quot_is_one (x y : Z) :
  (0 < x)%Z -> (0 < y)%Z -> (x `quot` y = 1 ↔ y <= x < 2 * y)%Z.
Proof.
  intros Hx Hy. rewrite Z.quot_div_nonneg by lia. split.
  - intros H. pose proof (Z.mul_div_le x y Hy). pose proof (Z.mul_succ_div_gt x y Hy). nia.
  - intros H. symmetry. apply (Z.div_unique x y 1 (x - y)); lia.
Qed.

(** X1: for positive sides the three labels are bands of the ratio: the
    label is landscape exactly when height <= width < 2 * height, portrait
    exactly when width < height < 2 * width, and other exactly when one
    side is at least twice the other. *)
Theorem X1_classifier_bands
    (env : Env) (filePath : string) (w : World) (wd ht : Z) (rest : list StreamInfo) :
  probes_to env w filePath (mkResponse (mkStream wd ht :: rest)) ->
  (0 < wd <= int_max)%Z -> (0 < ht <= int_max)%Z ->
  (labelled (getVideoAspectRatio env filePath w).1 "landscape" ↔ (ht <= wd < 2 * ht)%Z)
  ∧ (labelled (getVideoAspectRatio env filePath w).1 "portrait" ↔ (wd < ht < 2 * wd)%Z)
  ∧ (labelled (getVideoAspectRatio env filePath w).1 "other"
     ↔ (2 * ht <= wd ∨ 2 * wd <= ht)%Z).
Proof.
  intros Hp Hw Hh.
  rewrite (getVideoAspectRatio_decoded _ _ _ _ Hp). cbn [fst].
  rewrite compareSides_first. cbn [Width Height].
  rewrite (int_div_pos wd ht Hw Hh), (int_div_pos ht wd Hh Hw).
  pose proof (quot_is_one wd ht) as Hl. pose proof (quot_is_one ht wd) as Hq.
  assert (Hlab : ∀ a l, labelled (Returned (a, None)) l ↔ videoTypeOf a = l).
  { intros a l. split; [intros (a' & [= <-] & H); done | intros H; by exists a]. }
  destruct (decide (wd `quot` ht = 1)%Z) as [H1|H1].
  - rewrite !Hlab. unfold videoTypeOf. simpl.
    repeat split; try done; try lia; intros; exfalso; lia.
  - destruct (decide (ht `quot` wd = 1)%Z) as [H2|H2]; rewrite !Hlab; unfold videoTypeOf; simpl.
    + repeat split; try done; try lia; intros; exfalso; lia.
    + repeat split; try done; try lia; intros; exfalso; lia.
Qed.

Lemma X1_witness :
  probes_to (demo.env_sized 2560 1080) demo.world demo.tempName
    (mkResponse (mkStream 2560 1080 :: []))
  ∧ (0 < 2560 <= int_max)%Z ∧ (0 < 1080 <= int_max)%Z
  ∧ (labelled (getVideoAspectRatio (demo.env_sized 2560 1080) demo.tempName demo.world).1
       "other" ↔ (2 * 1080 <= 2560 ∨ 2 * 2560 <= 1080)%Z).
Proof.
  assert (Hp : probes_to (demo.env_sized 2560 1080) demo.world demo.tempName
                 (mkResponse (mkStream 2560 1080 :: []))) by (split; reflexivity).
  assert (Hw : (0 < 2560 <= int_max)%Z) by (unfold int_max; lia).
  assert (Hh : (0 < 1080 <= int_max)%Z) by (unfold int_max; lia).
  exact (conj Hp (conj Hw (conj Hh
    (proj2 (proj2 (X1_classifier_bands _ _ _ _ _ _ Hp Hw Hh)))))).
Defined.

(** X2: whatever the prober does, the classifier ends in one of six ways:
    it returns one of the three aspect-ratio strings with a nil error, it
    panics on the index or on a division, or it ends the process with
    status 1. It never returns a non-nil error, and it leaves the store,
    the files and the responses as they were. *)
Theorem X2_classifier_outcomes (env : Env) (filePath : string) (w : World) :
  ((getVideoAspectRatio env filePath w).1 = Returned ("16:9", None)
   ∨ (getVideoAspectRatio env filePath w).1 = Returned ("9:16", None)
   ∨ (getVideoAspectRatio env filePath w).1 = Returned ("other", None)
   ∨ (getVideoAspectRatio env filePath w).1 = Panicked "index out of range"
   ∨ (getVideoAspectRatio env filePath w).1 = Panicked "integer divide by zero"
   ∨ (getVideoAspectRatio env filePath w).1 = Exited 1)
  ∧ (∀ (s : string) (e : error),
       (getVideoAspectRatio env filePath w).1 ≠ Returned (s, Some e))
  ∧ store (getVideoAspectRatio env filePath w).2 = store w
  ∧ files (getVideoAspectRatio env filePath w).2 = files w
  ∧ responses (getVideoAspectRatio env filePath w).2 = responses w.
Proof.
  destruct (errors_As_ExitError (ffprobe env (files w !! filePath)).1) eqn:Hrun.
  { rewrite getVideoAspectRatio_exit_status by done. simpl.
    split; [pick|]. by repeat split. }
  destruct (json_Unmarshal env (ffprobe env (files w !! filePath)).2) as [file|e'] eqn:Hdec.
  2: { rewrite (getVideoAspectRatio_undecodable _ _ _ e') by done. simpl.
       split; [pick|]. by repeat split. }
  rewrite (getVideoAspectRatio_decoded env filePath w file) by done. cbn [fst snd].
  split; [|split; [|done]].
  - destruct file as [[|s rest]]; [rewrite compareSides_empty; pick|].
    rewrite compareSides_first.
    destruct (int_div (Width s) (Height s)) as [q|]; [|pick].
    destruct (decide (q = 1%Z)); [pick|].
    destruct (int_div (Height s) (Width s)) as [q'|]; [|pick].
    destruct (decide (q' = 1%Z)); pick.
  - intros s0 e. destruct file as [[|s rest]]; [by rewrite compareSides_empty|].
    rewrite compareSides_first.
    destruct (int_div (Width s) (Height s)) as [q|]; [|done].
    destruct (decide (q = 1%Z)); [done|].
    destruct (int_div (Height s) (Width s)) as [q'|]; [|done].
    by destruct (decide (q' = 1%Z)).
Qed.

(** ** Responses and files of the video handler *)

Ltac split_responses :=
  lazymatch goal with
  | |- ∃ l : list HTTPResponse, ?b = (?b ++ l)%list ∧ _ =>
      exists []; split; [symmetry; apply app_nil_r|]
  | |- ∃ l : list HTTPResponse, (?b ++ ?x)%list = (?b ++ l)%list ∧ _ =>
      exists x; split; [reflexivity|]
  | |- ∃ l : list HTTPResponse, ((?b ++ ?x) ++ ?y)%list = (?b ++ l)%list ∧ _ =>
      exists (x ++ y)%list; split; [symmetry; apply app_assoc|]
  end.

(** X3: the video handler writes one response when it returns and none
    when it does not return (a panic or a process exit inside the
    classifier); it never writes two. *)
Theorem X3_video_one_response (env : Env) (cfg : apiConfig) (r : Request) (w : World) :
  ∃ l : list HTTPResponse,
    responses (handlerUploadVideo env cfg r w).2 = (responses w ++ l)%list
    ∧ (((handlerUploadVideo env cfg r w).1 = Returned tt ∧ length l = 1)
       ∨ ((handlerUploadVideo env cfg r w).1 ≠ Returned tt ∧ l = [])).
Proof.
  unfold_run. run pruning fail.
  all: split_responses.
  all: first [left; split; [reflexivity|reflexivity] | right; split; [discriminate|reflexivity]].
Qed.

(** X4: the video handler removes the temporary file it created on every
    run on which the process does not exit, also on a panic. It creates
    at most one, under a name that was free before the request; when the
    handler ends, the deferred [os.Remove] has been called on that name
    and no file of that name is left. *)
Theorem X4_video_temp_file_removed (env : Env) (cfg : apiConfig) (r : Request) (w : World) :
  ∃ evs : list Event,
    calls (handlerUploadVideo env cfg r w).2 = (evs ++ calls w)%list
    ∧ (∀ p q : string, In (EvCreateTemp p) evs -> In (EvCreateTemp q) evs -> p = q)
    ∧ ∀ name : string,
        In (EvCreateTemp name) evs ->
        files w !! name = None
        ∧ ((∀ c : Z, (handlerUploadVideo env cfg r w).1 ≠ Exited c) ->
           In (EvRemove name) evs
           ∧ files (handlerUploadVideo env cfg r w).2 !! name = None).
Proof.
  unfold_run.
  repeat (step; simpl).
  all: split_trace.
  all: split; [intros p q Hp Hq; simpl in Hp, Hq; intuition congruence|].
  all: intros name Hin; simpl in Hin; try (intuition discriminate).
  all: repeat match goal with H : _ ∨ _ |- _ => destruct H as [H|H]; try discriminate H end.
  all: try done.
  all: injection Hin as <-.
  all: try (unfold os.exists_ in *; simpl in *; rewrite lookup_insert_eq in *; discriminate).
  all: match goal with H : find _ _ = Some _ |- _ => apply CreateTemp_fresh in H; simpl in H end.
  all: split; [assumption|].
  all: intros Hex; try (exfalso; by apply (Hex 1%Z)).
  all: split; [simpl; tauto | by rewrite lookup_delete_eq].
Qed.

(** A run that panics in the classifier: the temporary file was created
    and is gone when the handler ends. *)
Example temp_file_removed_on_panic_demo :
  In (EvCreateTemp demo.tempName)
    (calls (handlerUploadVideo (demo.env None (Ok (mkResponse []))) demo.cfg
              (demo.upload "video" "owner-token" "video/mp4" 500) demo.world).2)
  ∧ (handlerUploadVideo (demo.env None (Ok (mkResponse []))) demo.cfg
       (demo.upload "video" "owner-token" "video/mp4" 500) demo.world).1
    = Panicked "index out of range"
  ∧ files (handlerUploadVideo (demo.env None (Ok (mkResponse []))) demo.cfg
             (demo.upload "video" "owner-token" "video/mp4" 500) demo.world).2
      !! demo.tempName = None.
Proof. split; [vm_compute; tauto|]. split; vm_compute; reflexivity. Qed.




(** X6: whatever the video handler puts into object storage is the upload:
    the body is the bytes of the part named [video], the content type is
    video/mp4, the bucket is the configured one, and the key is one of the
    three labels, a slash, the hexadecimal encoding of the 32 bytes read
    from the random source, and [.mp4]. It puts at most one object. *)
Theorem X6_video_put_is_the_upload (env : Env) (cfg : apiConfig) (r : Request) (w : World) :
  ∃ evs : list Event,
    calls (handlerUploadVideo env cfg r w).2 = (evs ++ calls w)%list
    ∧ (∀ (p q : PutObjectInput) (bp bq : list byte),
         In (EvPutObject p bp) evs -> In (EvPutObject q bq) evs -> p = q ∧ bp = bq)
    ∧ ∀ (p : PutObjectInput) (body : list byte),
        In (EvPutObject p body) evs ->
        ∃ (header : FileHeader) (label : string),
          FormFile (MaxBytesReader r (Z.shiftl 1 30)) "video" = Ok header
          ∧ body = content header
          ∧ Bucket p = s3Bucket cfg
          ∧ ContentType p = "video/mp4"
          ∧ (label = "landscape" ∨ label = "portrait" ∨ label = "other")
          ∧ Key p = label ++ "/" ++ hex.EncodeToString (map (rand_stream env) (seq 0 32))
                      ++ ".mp4".
Proof.
  unfold_run. run pruning fail.
  all: split_trace.
  all: split; [intros p q bp bq Hp Hq; simpl in Hp, Hq; intuition congruence|].
  all: intros p body Hin; simpl in Hin; try (intuition discriminate).
  all: repeat match goal with H : _ ∨ _ |- _ => destruct H as [H|H]; try discriminate H end.
  all: try done.
  all: injection Hin as <- <-.
  all: match goal with n : ¬ ?x ≠ "video/mp4" |- _ =>
         destruct (decide (x = "video/mp4")); [subst|done] end.
  all: eexists _, _; split; [first [eassumption | reflexivity]|].
  all: split; [by rewrite !lookup_insert_eq|].
  all: split; [done|]; split; [done|].
  all: first [ split; [left; reflexivity|reflexivity]
             | split; [right; left; reflexivity|reflexivity]
             | split; [right; right; reflexivity|reflexivity] ].
Qed.

(** X7: the video handler calls the record updater only after the put into
    object storage has succeeded in the same request, and the URL it
    writes into the record names the key of that object: the record is
    the fetched one with [videoURL] set to the URL template over the
    bucket, the region and the key just stored. *)
Theorem X7_video_update_follows_put
    (env : Env) (cfg : apiConfig) (r : Request) (w : World) :
  ∃ evs : list Event,
    calls (handlerUploadVideo env cfg r w).2 = (evs ++ calls w)%list
    ∧ ∀ v' : Video,
        In (EvUpdateVideo v') evs ->
        PutObject_err env = None
        ∧ ∃ (pre post : list Event) (p : PutObjectInput) (body : list byte) (v : Video),
            evs = (pre ++ EvUpdateVideo v' :: post)%list
            ∧ In (EvPutObject p body) post
            ∧ fetches env r w v
            ∧ v' = set_VideoURL v ("https://" ++ s3Bucket cfg ++ ".s3." ++ s3Region cfg
                                     ++ ".amazonaws.com/" ++ Key p).
Proof.
  unfold_run. rewrite PathValue_MaxBytesReader. run pruning fail.
  all: split_trace.
  all: intros v' Hin; simpl in Hin; try (intuition discriminate).
  all: repeat match goal with H : _ ∨ _ |- _ => destruct H as [H|H]; try discriminate H end.
  all: try done.
  all: injection Hin as <-.
  all: split; [done|].
  all: first [ eexists [_; _; _], _, _, _, _; split; [reflexivity|]
             | eexists [_; _; _; _], _, _, _, _; split; [reflexivity|]
             | eexists [_; _; _; _; _], _, _, _, _; split; [reflexivity|] ].
  all: split; [simpl; left; reflexivity|].
  all: split; [eexists; by eauto|reflexivity].
Qed.

(** X8: neither handler leaves a partial mutation behind. The store after
    a request is the store before it, unless the handler returned with
    the single response 200 carrying the record it stored under its id. *)
Theorem X8_store_changes_only_with_200
    (env : Env) (cfg : apiConfig) (r : Request) (w : World) :
  (store (handlerUploadVideo env cfg r w).2 = store w
   ∨ ∃ v' : Video,
       (handlerUploadVideo env cfg r w).1 = Returned tt
       ∧ responses (handlerUploadVideo env cfg r w).2
         = (responses w ++ [mkHTTP StatusOK (VideoBody v')])%list
       ∧ store (handlerUploadVideo env cfg r w).2 = <[ID v' := v']> (store w))
  ∧ (store (handlerUploadThumbnail env cfg r w).2 = store w
     ∨ ∃ v' : Video,
         (handlerUploadThumbnail env cfg r w).1 = Returned tt
         ∧ responses (handlerUploadThumbnail env cfg r w).2
           = (responses w ++ [mkHTTP StatusOK (VideoBody v')])%list
         ∧ store (handlerUploadThumbnail env cfg r w).2 = <[ID v' := v']> (store w)).
Proof.
  split.
  - unfold_run. run pruning fail.
    all: first [left; reflexivity | right; eexists; repeat split; reflexivity].
  - unfold_run. run pruning fail.
    all: first [left; reflexivity | right; eexists; repeat split; reflexivity].
Qed.

(** X9: without a valid credential neither handler touches anything. It
    returns after one error response, having made no call but to the log:
    no record lookup, no file, no object, no update. The status is 401
    when the video id parses and 400 when it does not. *)
Theorem X9_no_credential_no_access
    (env : Env) (cfg : apiConfig) (r : Request) (w : World) :
  (∀ userID : UUID, ¬ authenticated env cfg r userID) ->
  ((handlerUploadVideo env cfg r w).1 = Returned tt
   ∧ since (calls w) only_logs (calls (handlerUploadVideo env cfg r w).2)
   ∧ store (handlerUploadVideo env cfg r w).2 = store w
   ∧ files (handlerUploadVideo env cfg r w).2 = files w
   ∧ ∃ (code : Z) (msg : string),
       responses (handlerUploadVideo env cfg r w).2
       = (responses w ++ [mkHTTP code (ErrorBody msg)])%list
       ∧ (is_Ok (uuid_Parse env (PathValue r "videoID")) = true -> code = StatusUnauthorized)
       ∧ (is_Ok (uuid_Parse env (PathValue r "videoID")) = false -> code = StatusBadRequest))
  ∧ ((handlerUploadThumbnail env cfg r w).1 = Returned tt
     ∧ since (calls w) only_logs (calls (handlerUploadThumbnail env cfg r w).2)
     ∧ store (handlerUploadThumbnail env cfg r w).2 = store w
     ∧ files (handlerUploadThumbnail env cfg r w).2 = files w
     ∧ ∃ (code : Z) (msg : string),
         responses (handlerUploadThumbnail env cfg r w).2
         = (responses w ++ [mkHTTP code (ErrorBody msg)])%list
         ∧ (is_Ok (uuid_Parse env (PathValue r "videoID")) = true -> code = StatusUnauthorized)
         ∧ (is_Ok (uuid_Parse env (PathValue r "videoID")) = false
            -> code = StatusBadRequest)).
Proof.
  intros Hno. unfold authenticated in Hno. split.
  - unfold_run. rewrite PathValue_MaxBytesReader, Header_MaxBytesReader.
    destruct (uuid_Parse env (PathValue r "videoID")) as [videoID|e]; simpl.
    2: { repeat split; try done; [since_tac|]. by eexists _, _. }
    destruct (auth_GetBearerToken env (Header r)) as [token|e] eqn:Htok; simpl.
    2: { repeat split; try done; [since_tac|]. by eexists _, _. }
    destruct (auth_ValidateJWT env token (jwtSecret cfg)) as [userID|e] eqn:Hjwt; simpl.
    2: { repeat split; try done; [since_tac|]. by eexists _, _. }
    exfalso. apply (Hno userID). by exists token.
  - unfold_run.
    destruct (uuid_Parse env (PathValue r "videoID")) as [videoID|e]; simpl.
    2: { repeat split; try done; [since_tac|]. by eexists _, _. }
    destruct (auth_GetBearerToken env (Header r)) as [token|e] eqn:Htok; simpl.
    2: { repeat split; try done; [since_tac|]. by eexists _, _. }
    destruct (auth_ValidateJWT env token (jwtSecret cfg)) as [userID|e] eqn:Hjwt; simpl.
    2: { repeat split; try done; [since_tac|]. by eexists _, _. }
    exfalso. apply (Hno userID). by exists token.
Qed.

Lemma X9_witness :
  (∀ userID : UUID,
     ¬ authenticated (demo.env_sized 1920 1080) demo.cfg
         (demo.upload "video" "forged-token" "video/mp4" 500) userID)
  ∧ since (calls demo.world) only_logs
      (calls (handlerUploadVideo (demo.env_sized 1920 1080) demo.cfg
                (demo.upload "video" "forged-token" "video/mp4" 500) demo.world).2).
Proof.
  assert (Hno : ∀ userID : UUID,
            ¬ authenticated (demo.env_sized 1920 1080) demo.cfg
                (demo.upload "video" "forged-token" "video/mp4" 500) userID).
  { intros userID (token & Htok & Hjwt). vm_compute in Htok. injection Htok as <-.
    vm_compute in Hjwt. discriminate Hjwt. }
  exact (conj Hno (proj1 (proj2 (proj1 (X9_no_credential_no_access _ _ _ _ Hno))))).
Defined.

(** ** Branches that are never taken *)

(** X10: the video handler never answers "Couldn't get video's aspect
    ratio": the classifier returns no error, so the handler's branch for a
    classification error is dead. *)
Theorem X10_video_classification_error_branch_is_dead
    (env : Env) (cfg : apiConfig) (r : Request) (w : World) :
  ∃ l : list HTTPResponse,
    responses (handlerUploadVideo env cfg r w).2 = (responses w ++ l)%list
    ∧ ∀ code : Z, ¬ In (mkHTTP code (ErrorBody "Couldn't get video's aspect ratio")) l.
Proof.
  unfold_run. run pruning fail.
  all: split_responses.
  all: intros code Hin; simpl in Hin; intuition discriminate.
Qed.

Lemma mimeToExt_allowed (mediaType : string) :
  negb (bool_decide (mediaType = "image/jpeg") || bool_decide (mediaType = "image/png")) = false ->
  (mediaType = "image/jpeg" ∧ mimeToExt !! mediaType = Some ".jpg")
  ∨ (mediaType = "image/png" ∧ mimeToExt !! mediaType = Some ".png").
Proof.
  intros H. apply negb_false_iff, orb_true_iff in H.
  destruct H as [->%bool_decide_eq_true | ->%bool_decide_eq_true]; [left|right];
    split; try done; vm_compute; reflexivity.
Qed.

(** X11: the thumbnail handler never answers "Wrong file extension": a
    media type that passed the allow-list check always has an extension
    in [mimeToExt], so the lookup's failure branch is dead. *)
Theorem X11_thumbnail_extension_branch_is_dead
    (env : Env) (cfg : apiConfig) (r : Request) (w : World) :
  ∃ l : list HTTPResponse,
    responses (handlerUploadThumbnail env cfg r w).2 = (responses w ++ l)%list
    ∧ ∀ code : Z, ¬ In (mkHTTP code (ErrorBody "Wrong file extension")) l.
Proof.
  unfold_run.
  run pruning (exfalso; match goal with
                        | H : negb _ = false, Hx : mimeToExt !! _ = None |- _ =>
                            destruct (mimeToExt_allowed _ H) as [[_ Hs]|[_ Hs]]; congruence
                        end).
  all: split_responses.
  all: intros code Hin; simpl in Hin; intuition discriminate.
Qed.

(** ** The thumbnail flow *)

(** X12: on a successful run of the thumbnail handler (a fresh response
    writer ends with status 200) the uploaded bytes are in the file
    assetsRoot/{token}{ext}, and the record handed to the updater, stored
    and sent back is the fetched record with [thumbnailURL] set to
    http://localhost:{port}/assets/{token}{ext}. The extension is .png for
    image/png and .jpg for image/jpeg; the token is the unpadded URL-safe
    base64 encoding of the 32-byte buffer (zeroes when the random source
    failed, an error the handler ignores). The other fields are those of
    the fetched record. *)
Theorem X12_thumbnail_url (env : Env) (cfg : apiConfig) (r : Request) (w : World) :
  responses w = [] ->
  status (handlerUploadThumbnail env cfg r w).2 = Some StatusOK ->
  ∃ (v : Video) (r' : Request) (header : FileHeader) (mediaType ext : string),
    fetches env r w v
    ∧ ParseMultipartForm r (Z.shiftl 10 20) = Ok r'
    ∧ FormFile r' "thumbnail" = Ok header
    ∧ declared_type env header = Ok mediaType
    ∧ ((mediaType = "image/png" ∧ ext = ".png") ∨ (mediaType = "image/jpeg" ∧ ext = ".jpg"))
    ∧ (handlerUploadThumbnail env cfg r w).1 = Returned tt
    ∧ responses (handlerUploadThumbnail env cfg r w).2
      = [mkHTTP StatusOK
           (VideoBody (set_ThumbnailURL v
                         (thumbnail_url cfg (thumbnail_token_bytes env) ext)))]
    ∧ files (handlerUploadThumbnail env cfg r w).2
        !! filepath_Join (assetsRoot cfg)
             (base64.EncodeToString (thumbnail_token_bytes env) ++ ext)
      = Some (content header)
    ∧ In (EvUpdateVideo (set_ThumbnailURL v
                           (thumbnail_url cfg (thumbnail_token_bytes env) ext)))
        (calls (handlerUploadThumbnail env cfg r w).2)
    ∧ (is_Some (store w !! ID v) ->
       store (handlerUploadThumbnail env cfg r w).2
       = <[ID v := set_ThumbnailURL v (thumbnail_url cfg (thumbnail_token_bytes env) ext)]>
           (store w))
    ∧ ThumbnailURL (set_ThumbnailURL v (thumbnail_url cfg (thumbnail_token_bytes env) ext))
      = Some (thumbnail_url cfg (thumbnail_token_bytes env) ext)
    ∧ ID (set_ThumbnailURL v (thumbnail_url cfg (thumbnail_token_bytes env) ext)) = ID v
    ∧ UserID (set_ThumbnailURL v (thumbnail_url cfg (thumbnail_token_bytes env) ext))
      = UserID v
    ∧ Title (set_ThumbnailURL v (thumbnail_url cfg (thumbnail_token_bytes env) ext)) = Title v
    ∧ Description (set_ThumbnailURL v (thumbnail_url cfg (thumbnail_token_bytes env) ext))
      = Description v
    ∧ VideoURL (set_ThumbnailURL v (thumbnail_url cfg (thumbnail_token_bytes env) ext))
      = VideoURL v.
Proof.
  intros Hresp. unfold declared_type, thumbnail_token_bytes.
  unfold_run.
  run pruning fail.
  all: unfold status; simpl; rewrite ?Hresp; simpl.
  all: try (intros [=]; fail).
  all: intros _.
  all: match goal with
       | Hb : negb _ = false, Hx : mimeToExt !! _ = Some ?s,
         Hid : uuid_Parse _ _ = Ok ?id, Hv : store _ !! ?id = Some ?v |- _ =>
           exists v; eexists _, _, _, s;
           destruct (mimeToExt_allowed _ Hb) as [[-> Hs]|[-> Hs]];
           rewrite Hs in Hx; injection Hx as <-
       end.
  all: split; [eexists; by eauto|].
  all: split; [reflexivity|]; split; [eassumption|]; split; [eassumption|].
  all: split; [first [left; split; reflexivity | right; split; reflexivity]|].
  all: split; [done|]; split; [done|].
  all: split; [by rewrite !lookup_insert_eq|]; split; [simpl; tauto|].
  all: split; [|done].
  all: try done.
  all: intros [? ?]; congruence.
Qed.

Lemma X12_witness :
  responses demo.world = []
  ∧ status (handlerUploadThumbnail (demo.env_sized 1920 1080) demo.cfg
              (demo.upload "thumbnail" "owner-token" "image/png" 500) demo.world).2
    = Some StatusOK
  ∧ ∃ (v : Video) (ext : string),
      responses (handlerUploadThumbnail (demo.env_sized 1920 1080) demo.cfg
                   (demo.upload "thumbnail" "owner-token" "image/png" 500) demo.world).2
      = [mkHTTP StatusOK
           (VideoBody (set_ThumbnailURL v
              (thumbnail_url demo.cfg (thumbnail_token_bytes (demo.env_sized 1920 1080)) ext)))].
Proof.
  assert (H1 : responses demo.world = []) by reflexivity.
  assert (H2 : status (handlerUploadThumbnail (demo.env_sized 1920 1080) demo.cfg
                         (demo.upload "thumbnail" "owner-token" "image/png" 500)
                         demo.world).2 = Some StatusOK) by (vm_compute; reflexivity).
  split; [exact H1|]. split; [exact H2|].
  destruct (X12_thumbnail_url _ _ _ _ H1 H2)
    as (v & _ & _ & _ & ext & _ & _ & _ & _ & _ & _ & Hr & _).
  exists v, ext. exact Hr.
Defined.

(** *** The file name *)

Lemma by_threes {A : Type} (P : list A -> Prop) :
  P [] -> (∀ a, P [a]) -> (∀ a b, P [a; b]) ->
  (∀ a b c l, P l -> P (a :: b :: c :: l)) ->
  ∀ l, P l.
Proof.
  intros H0 H1 H2 H3.
  assert (H : ∀ l, P l ∧ (∀ a, P (a :: l)) ∧ (∀ a b, P (a :: b :: l))).
  { induction l as [|x l (IH0 & IH1 & IH2)]; [by repeat split|].
    repeat split; [apply IH1 | intros; apply IH2 | intros; by apply H3]. }
  intros l. apply H.
Qed.

Lemma base64_three (b0 b1 b2 : byte) (rest : list byte) :
  base64.EncodeToString (b0 :: b1 :: b2 :: rest)
  = String (base64.sextet (N.shiftr (N.lor (N.lor (N.shiftl (Byte.to_N b0) 16)
                                              (N.shiftl (Byte.to_N b1) 8)) (Byte.to_N b2)) 18))
      (String (base64.sextet (N.shiftr (N.lor (N.lor (N.shiftl (Byte.to_N b0) 16)
                                                 (N.shiftl (Byte.to_N b1) 8)) (Byte.to_N b2)) 12))
         (String (base64.sextet (N.shiftr (N.lor (N.lor (N.shiftl (Byte.to_N b0) 16)
                                                    (N.shiftl (Byte.to_N b1) 8)) (Byte.to_N b2)) 6))
            (String (base64.sextet (N.lor (N.lor (N.shiftl (Byte.to_N b0) 16)
                                             (N.shiftl (Byte.to_N b1) 8)) (Byte.to_N b2)))
               (base64.EncodeToString rest)))).
Proof. reflexivity. Qed.

Lemma sextet_url_safe (n : N) : url_safe (base64.sextet n) = true.
Proof.
  unfold base64.sextet.
  assert (H : (N.to_nat (N.land n 63) < 64)%nat).
  { change 63%N with (N.ones 6). rewrite N.land_ones.
    pose proof (N.mod_upper_bound n (2 ^ 6)%N). change (2 ^ 6)%N with 64%N in *. lia. }
  revert H. generalize (N.to_nat (N.land n 63)). intros k Hk.
  do 64 (destruct k as [|k]; [vm_compute; reflexivity|]). lia.
Qed.

Lemma base64_length (b : list byte) :
  String.length (base64.EncodeToString b) = (4 * length b + 2) / 3.
Proof.
  induction b as [| a | a a' | a a' a'' l IH] using by_threes; try reflexivity.
  rewrite base64_three. cbn [String.length length]. rewrite IH.
  replace (4 * S (S (S (length l))) + 2) with ((4 * length l + 2) + 4 * 3) by lia.
  rewrite Nat.div_add by lia. lia.
Qed.

Lemma base64_url_safe (b : list byte) :
  forallb url_safe (list_ascii_of_string (base64.EncodeToString b)) = true.
Proof.
  induction b as [| a | a a' | a a' a'' l IH] using by_threes.
  - reflexivity.
  - change (base64.EncodeToString [a])
      with (String (base64.sextet (N.shiftr (N.shiftl (Byte.to_N a) 16) 18))
              (String (base64.sextet (N.shiftr (N.shiftl (Byte.to_N a) 16) 12)) "")).
    cbn [list_ascii_of_string forallb]. by rewrite !sextet_url_safe.
  - change (base64.EncodeToString [a; a'])
      with (String (base64.sextet (N.shiftr (N.lor (N.shiftl (Byte.to_N a) 16)
                                              (N.shiftl (Byte.to_N a') 8)) 18))
              (String (base64.sextet (N.shiftr (N.lor (N.shiftl (Byte.to_N a) 16)
                                                 (N.shiftl (Byte.to_N a') 8)) 12))
                 (String (base64.sextet (N.shiftr (N.lor (N.shiftl (Byte.to_N a) 16)
                                                    (N.shiftl (Byte.to_N a') 8)) 6)) ""))).
    cbn [list_ascii_of_string forallb]. by rewrite !sextet_url_safe.
  - rewrite base64_three. cbn [list_ascii_of_string forallb].
    by rewrite !sextet_url_safe, IH.
Qed.

Lemma thumbnail_token_bytes_length (env : Env) : length (thumbnail_token_bytes env) = 32.
Proof. unfold thumbnail_token_bytes. by destruct (rand_err env). Qed.

(** X13: every file the thumbnail handler creates sits directly in the
    assets directory: its path is assetsRoot joined with {token}{ext},
    where the extension is .png or .jpg and the token is 43 characters of
    the URL-safe alphabet (letters, digits, - and _), so the name holds no
    path separator and no padding. The handler creates at most one file. *)
Theorem X13_thumbnail_file_name (env : Env) (cfg : apiConfig) (r : Request) (w : World) :
  ∃ evs : list Event,
    calls (handlerUploadThumbnail env cfg r w).2 = (evs ++ calls w)%list
    ∧ (∀ p q : string, In (EvCreate p) evs -> In (EvCreate q) evs -> p = q)
    ∧ ∀ path : string,
        In (EvCreate path) evs ->
        ∃ ext : string,
          path = filepath_Join (assetsRoot cfg)
                   (base64.EncodeToString (thumbnail_token_bytes env) ++ ext)
          ∧ (ext = ".png" ∨ ext = ".jpg")
          ∧ String.length (base64.EncodeToString (thumbnail_token_bytes env)) = 43
          ∧ forallb url_safe
              (list_ascii_of_string (base64.EncodeToString (thumbnail_token_bytes env)))
            = true.
Proof.
  pose proof (base64_url_safe (thumbnail_token_bytes env)) as Hsafe.
  assert (H43 : String.length (base64.EncodeToString (thumbnail_token_bytes env)) = 43)
    by (by rewrite base64_length, thumbnail_token_bytes_length).
  unfold_run.
  run pruning fail.
  all: split_trace.
  all: split; [intros p q Hp Hq; simpl in Hp, Hq; intuition congruence|].
  all: intros path Hin; simpl in Hin; try (intuition discriminate).
  all: repeat match goal with H : _ ∨ _ |- _ => destruct H as [H|H]; try discriminate H end.
  all: try done.
  all: injection Hin as <-.
  all: match goal with
       | Hb : negb _ = false, Hx : mimeToExt !! _ = Some ?s |- _ =>
           exists s; destruct (mimeToExt_allowed _ Hb) as [[-> Hs]|[-> Hs]];
           rewrite Hs in Hx; injection Hx as <-
       end.
  all: split; [unfold thumbnail_token_bytes;
                 match goal with H : rand_err _ = _ |- _ => by rewrite H end|].
  all: split; [tauto|]. all: split; [exact H43 | exact Hsafe].
Qed.

(** *** Failures after the checks *)

(** X14: when [os.Create] fails, the thumbnail handler answers 500 but
    does not return: it goes on to copy into the nil file, that fails,
    and it answers 500 a second time. The updater is not called and the
    store and the files are as before. (Owner's request that passes the
    form and content-type checks.) *)
Theorem X14_thumbnail_create_failure_goes_on
    (env : Env) (cfg : apiConfig) (r : Request) (w : World) (v : Video) (e : error) :
  authenticated env cfg r (UserID v) ->
  fetches env r w v ->
  thumbnail_accepted env r ->
  Create_err env = Some e ->
  (handlerUploadThumbnail env cfg r w).1 = Returned tt
  ∧ responses (handlerUploadThumbnail env cfg r w).2
    = (responses w
       ++ [mkHTTP StatusInternalServerError (ErrorBody "Error creating thumbnail file");
           mkHTTP StatusInternalServerError (ErrorBody "Error writing content into file")])%list
  ∧ since (calls w) not_update (calls (handlerUploadThumbnail env cfg r w).2)
  ∧ store (handlerUploadThumbnail env cfg r w).2 = store w
  ∧ files (handlerUploadThumbnail env cfg r w).2 = files w.
Proof.
  intros (token & Htok & Hjwt) (videoID & Hid & Hget & Hv)
         (r' & header & mediaType & HP & HF & Hm & Hmt) Hcreate.
  unfold declared_type in Hm. unfold_run.
  rewrite Hid, Htok, Hjwt. simpl. rewrite HP. simpl. rewrite HF. simpl. rewrite Hm.
  run pruning (exfalso; same_lhs;
               match goal with
               | H : negb _ = true |- _ =>
                   destruct Hmt as [-> | ->]; vm_compute in H; discriminate H
               | H : negb _ = false, Hx : mimeToExt !! _ = None |- _ =>
                   destruct (mimeToExt_allowed _ H) as [[_ Hs]|[_ Hs]]; congruence
               end).
  all: split; [done|]; split; [by rewrite <- app_assoc|]; split; [since_tac|]; done.
Qed.

Lemma X14_witness :
  authenticated (demo_faulty (Some "permission denied") None None None) demo.cfg
    (demo.upload "thumbnail" "owner-token" "image/png" 500) (UserID demo.video)
  ∧ fetches (demo_faulty (Some "permission denied") None None None)
      (demo.upload "thumbnail" "owner-token" "image/png" 500) demo.world demo.video
  ∧ thumbnail_accepted (demo_faulty (Some "permission denied") None None None)
      (demo.upload "thumbnail" "owner-token" "image/png" 500)
  ∧ responses (handlerUploadThumbnail (demo_faulty (Some "permission denied") None None None)
                 demo.cfg (demo.upload "thumbnail" "owner-token" "image/png" 500)
                 demo.world).2
    = (responses demo.world
       ++ [mkHTTP StatusInternalServerError (ErrorBody "Error creating thumbnail file");
           mkHTTP StatusInternalServerError (ErrorBody "Error writing content into file")])%list.
Proof.
  assert (Ha : authenticated (demo_faulty (Some "permission denied") None None None) demo.cfg
                 (demo.upload "thumbnail" "owner-token" "image/png" 500) (UserID demo.video))
    by (exists "owner-token"; split; reflexivity).
  assert (Hf : fetches (demo_faulty (Some "permission denied") None None None)
                 (demo.upload "thumbnail" "owner-token" "image/png" 500)
                 demo.world demo.video)
    by (exists 1%N; repeat split; reflexivity).
  assert (Hacc : thumbnail_accepted (demo_faulty (Some "permission denied") None None None)
                   (demo.upload "thumbnail" "owner-token" "image/png" 500)).
  { eexists _, _, "image/png". split; [vm_compute; reflexivity|].
    split; [vm_compute; reflexivity|]. split; [vm_compute; reflexivity|]. by right. }
  exact (conj Ha (conj Hf (conj Hacc
    (proj1 (proj2 (X14_thumbnail_create_failure_goes_on _ _ _ _ _ _ Ha Hf Hacc eq_refl)))))).
Defined.

(** X15: the thumbnail handler never cleans up. A file it has created is
    still there when the request ends, whatever happened afterwards; when
    the copy did not fail it holds the bytes of the uploaded part, also
    when the record update then failed and the request was answered 400. *)
Theorem X15_thumbnail_file_stays (env : Env) (cfg : apiConfig) (r : Request) (w : World) :
  ∃ evs : list Event,
    calls (handlerUploadThumbnail env cfg r w).2 = (evs ++ calls w)%list
    ∧ ∀ path : string,
        In (EvCreate path) evs ->
        Create_err env = None ->
        ∃ (r' : Request) (header : FileHeader) (data : list byte),
          ParseMultipartForm r (Z.shiftl 10 20) = Ok r'
          ∧ FormFile r' "thumbnail" = Ok header
          ∧ files (handlerUploadThumbnail env cfg r w).2 !! path = Some data
          ∧ (Copy_err env = None -> data = content header)
          ∧ (Copy_err env = None -> UpdateVideo_err env ≠ None ->
             (handlerUploadThumbnail env cfg r w).1 = Returned tt
             ∧ responses (handlerUploadThumbnail env cfg r w).2
               = (responses w
                  ++ [mkHTTP StatusBadRequest (ErrorBody "Error updating video metadata")])%list
             ∧ store (handlerUploadThumbnail env cfg r w).2 = store w).
Proof.
  unfold_run.
  run pruning fail.
  all: split_trace.
  all: intros path Hin Hc; simpl in Hin; try (intuition discriminate).
  all: repeat match goal with H : _ ∨ _ |- _ => destruct H as [H|H]; try discriminate H end.
  all: try done.
  all: injection Hin as <-.
  all: try congruence.
  all: eexists _, _, _; split; [reflexivity|]; split; [eassumption|].
  all: split; [simpl; by rewrite ?lookup_insert_eq|].
  all: split; [intros; try congruence; by rewrite ?lookup_insert_eq|].
  all: intros ? ?; try congruence; done.
Qed.

(** The record update fails after the file was written: 400, and the file
    is on disk with the upload. *)
Example thumbnail_update_failure_demo :
  status (handlerUploadThumbnail (demo_faulty None None None (Some "database is locked"))
            demo.cfg (demo.upload "thumbnail" "owner-token" "image/png" 500) demo.world).2
  = Some StatusBadRequest
  ∧ files (handlerUploadThumbnail (demo_faulty None None None (Some "database is locked"))
             demo.cfg (demo.upload "thumbnail" "owner-token" "image/png" 500) demo.world).2
      !! "assets/AAECAwQFBgcICQoLDA0ODxAREhMUFRYXGBkaGxwdHh8.png"
    = Some [x00; x01; x02; x03].
Proof. split; vm_compute; reflexivity. Qed.

(** ** A run error that is not an exit status *)

(** X16: the classifier only treats an exit status as a failure of the
    run. When the prober could not be run for another reason (not found,
    I/O), the error is logged and otherwise ignored: the classifier goes
    on to decode what was captured, returns the classification of the
    decoded streams if the output decodes, and ends the process with
    status 1 if it does not. *)
Theorem X16_other_run_errors_are_ignored
    (env : Env) (filePath : string) (w : World) (e : error) :
  (ffprobe env (files w !! filePath)).1 = Some (OtherRunError e) ->
  match json_Unmarshal env (ffprobe env (files w !! filePath)).2 with
  | Ok file =>
      (getVideoAspectRatio env filePath w).1 = (compareSides file (probed filePath w)).1
  | Err _ => (getVideoAspectRatio env filePath w).1 = Exited 1
  end
  ∧ ∀ s : string, (getVideoAspectRatio env filePath w).1 ≠ Returned (s, Some e).
Proof.
  intros Hrun.
  assert (Has : errors_As_ExitError (ffprobe env (files w !! filePath)).1 = false)
    by (by rewrite Hrun).
  destruct (json_Unmarshal env (ffprobe env (files w !! filePath)).2) as [file|e'] eqn:Hdec.
  - rewrite (getVideoAspectRatio_decoded env filePath w file) by done. cbn [fst].
    split; [done|]. intros s.
    destruct file as [[|s0 rest]]; [by rewrite compareSides_empty|].
    rewrite compareSides_first.
    destruct (int_div (Width s0) (Height s0)) as [q|]; [|done].
    destruct (decide (q = 1%Z)); [done|].
    destruct (int_div (Height s0) (Width s0)) as [q'|]; [|done].
    by destruct (decide (q' = 1%Z)).
  - by rewrite (getVideoAspectRatio_undecodable _ _ _ e').
Qed.

Lemma X16_witness :
  (ffprobe (demo.env (Some (OtherRunError "executable file not found in $PATH"))
              (Err "unexpected end of JSON input"))
     (files demo.world !! demo.tempName)).1
  = Some (OtherRunError "executable file not found in $PATH")
  ∧ (getVideoAspectRatio
       (demo.env (Some (OtherRunError "executable file not found in $PATH"))
          (Err "unexpected end of JSON input"))
       demo.tempName demo.world).1 = Exited 1.
Proof.
  assert (H : (ffprobe (demo.env (Some (OtherRunError "executable file not found in $PATH"))
                          (Err "unexpected end of JSON input"))
                 (files demo.world !! demo.tempName)).1
              = Some (OtherRunError "executable file not found in $PATH")) by reflexivity.
  exact (conj H (proj1 (X16_other_run_errors_are_ignored _ _ _ _ H))).
Defined.
